(** * jasmin_metadata: the generic metadata store and its admin integration

    A shallow embedding of [jasmin_metadata/models/base.py] and of the
    metadata-related parts of [jasmin_metadata/admin.py], with the Django ORM
    calls the code makes modelled as operations of a small state-and-exception
    monad over the database tables.

    A [Metadatum] row holds its value as the Python value the field hands
    back: the pickling done by [PickledObjectField] below the ORM is not part
    of the model. *)

From stdpp Require Import gmap strings list fin_maps.

(** ** Python values held by [Metadatum.value] *)

(** The values the metadata forms produce: [None], booleans, integers,
    strings and lists (multiple choice). *)
#[local] Set Warnings "-register-all".

Inductive pyvalue : Type :=
  | PyNone
  | PyBool (b : bool)
  | PyInt (z : Z)
  | PyStr (s : string)
  | PyList (l : list pyvalue).

(** ** Models *)

(** A row of [django.contrib.contenttypes.models.ContentType]: its primary
    key, written as [pk] and [object_id] write primary keys, and its natural
    key. *)
Record ContentType : Type := {
  ct_pk : string;
  app_label : string;
  model : string
}.

#[global] Instance ContentType_eq_dec : EqDecision ContentType.
Proof. solve_decision. Defined.

(** A concrete model class: its content type, and whether it inherits the
    abstract model [HasMetadata] (and with it the [GenericRelation] called
    [metadata], base.py lines 44-45). *)
Record ModelClass : Type := {
  model_ct : ContentType;
  inherits_HasMetadata : bool
}.

#[global] Instance ModelClass_eq_dec : EqDecision ModelClass.
Proof. solve_decision. Defined.

(** A saved model instance.  [pk] is the primary key as it is written to
    [Metadatum.object_id], a [CharField].  [cascade_refs] are the instances
    it refers to by a foreign key declared with [on_delete = CASCADE], each
    given by the content type of its model and its primary key. *)
Record Obj : Type := {
  obj_class : ModelClass;
  pk : string;
  cascade_refs : list (ContentType * string)
}.

#[global] Instance Obj_eq_dec : EqDecision Obj.
Proof. solve_decision. Defined.

(** [class Metadatum(models.Model)], base.py lines 16-34; [id] is the
    [AutoField] of migration 0003. *)
Record Metadatum : Type := {
  id : N;
  content_type : ContentType;
  object_id : string;
  key : string;
  value : pyvalue
}.

(** [PickledObjectField(null = True)]: the column accepts NULL. *)
Definition value_null : bool := true.

(** The tables: the rows of [Metadatum] in primary-key order with the next
    value of the [AutoField] sequence, and the rows of the other models. *)
Record Database : Type := {
  metadata_rows : list Metadatum;
  metadata_seq : N;
  object_rows : list Obj
}.

(** ** The ORM monad: state passing with exceptions

    Nothing in the modelled code opens a transaction, so what was written
    before an exception stays written. *)

Inductive exn : Type :=
  | IntegrityError
  | DuplicateTypeError
  | UnboundLocalError.

Inductive outcome (A : Type) : Type :=
  | Ok (a : A)
  | Raise (e : exn).
Arguments Ok {A} a.
Arguments Raise {A} e.

Definition St (S A : Type) : Type := S → outcome A * S.

#[global] Instance St_ret {S : Type} : MRet (St S) := λ A a s, (Ok a, s).

#[global] Instance St_bind {S : Type} : MBind (St S) := λ A B f c s,
  match c s with
  | (Ok a, s') => f a s'
  | (Raise e, s') => (Raise e, s')
  end.

(** Code that talks to the database. *)
Abbreviation ORM := (St Database).

(** [for x in xs: body(x)] *)
Fixpoint for_ {S A : Type} (xs : list A) (body : A → St S unit) : St S unit :=
  match xs with
  | [] => mret tt
  | x :: xs' => body x ≫= λ _, for_ xs' body
  end.

(** ** ORM calls on [Metadatum] *)

(** The test of [.filter(content_type = ct, object_id = oid)]. *)
Definition refers_to (ct : ContentType) (oid : string) (d : Metadatum) : Prop :=
  content_type d = ct ∧ object_id d = oid.

#[global] Instance refers_to_dec ct oid d : Decision (refers_to ct oid d).
Proof. unfold refers_to. apply _. Defined.

(** [ContentType.objects.get_for_model(obj)] *)
Definition get_for_model (obj : Obj) : ContentType := model_ct (obj_class obj).

(** [Metadatum.objects.filter(content_type = ct, object_id = oid)], evaluated. *)
Definition objects_filter (ct : ContentType) (oid : string) : ORM (list Metadatum) :=
  λ db, (Ok (filter (refers_to ct oid) (metadata_rows db)), db).

(** [Metadatum.objects.filter(content_type = ct, object_id = oid).delete()];
    no model has a foreign key to [Metadatum], so nothing else is collected. *)
Definition objects_filter_delete (ct : ContentType) (oid : string) : ORM unit :=
  λ db, (Ok tt,
         {| metadata_rows := filter (λ d, ¬ refers_to ct oid d) (metadata_rows db);
            metadata_seq := metadata_seq db;
            object_rows := object_rows db |}).

(** The key of [unique_together = ('content_type', 'object_id', 'key')]. *)
Definition unique_key (d : Metadatum) : ContentType * string * string :=
  (content_type d, object_id d, key d).

(** [Metadatum.objects.create(content_type, object_id, key, value)]: the
    insert is refused with [IntegrityError] when a row with the same
    [unique_together] key exists, or when the value is NULL and the column
    does not accept it. *)
Definition objects_create (ct : ContentType) (oid k : string) (v : pyvalue)
  : ORM Metadatum :=
  λ db,
    if decide ((ct, oid, k) ∈ unique_key <$> metadata_rows db) then
      (Raise IntegrityError, db)
    else if match v with PyNone => negb value_null | _ => false end then
      (Raise IntegrityError, db)
    else
      let d := {| id := metadata_seq db; content_type := ct; object_id := oid;
                  key := k; value := v |} in
      (Ok d,
       {| metadata_rows := metadata_rows db ++ [d];
          metadata_seq := N.succ (metadata_seq db);
          object_rows := object_rows db |}).

(** [self.metadata.all()], the [GenericRelation] of [HasMetadata]. *)
Definition metadata_all (self : Obj) : ORM (list Metadatum) :=
  objects_filter (get_for_model self) (pk self).

(** ** base.py: [HasMetadata.copy_metadata_to] (lines 47-59) *)

Definition copy_metadata_to (self obj : Obj) : ORM unit :=
  let content_type := get_for_model obj in
  (* Remove any existing metadata for the object *)
  objects_filter_delete content_type (pk obj) ≫= λ _,
  metadata_all self ≫= λ data,
  for_ data (λ datum,
    objects_create content_type (pk obj) (key datum) (value datum) ≫= λ _,
    mret tt).

(** ** admin.py: [HasMetadataModelAdmin.get_metadata_form_initial_data]
    (lines 195-202) *)

(** [{ d.key : d.value for d in rows }] *)
Definition dict_of_rows (rows : list Metadatum) : gmap string pyvalue :=
  foldl (λ acc d, <[key d := value d]> acc) ∅ rows.

Definition get_metadata_form_initial_data (obj : Obj) : ORM (gmap string pyvalue) :=
  let ctype := get_for_model obj in
  objects_filter ctype (pk obj) ≫= λ metadata,
  mret (dict_of_rows metadata).

(** The mapping read in a given database state. *)
Definition metadata_of (db : Database) (obj : Obj) : gmap string pyvalue :=
  dict_of_rows (filter (refers_to (get_for_model obj) (pk obj)) (metadata_rows db)).

(** The rows of one entity. *)
Definition rows_of (db : Database) (obj : Obj) : list Metadatum :=
  filter (refers_to (get_for_model obj) (pk obj)) (metadata_rows db).

(** The [unique_together] constraint as a property of the table. *)
Definition unique_together (db : Database) : Prop :=
  NoDup (unique_key <$> metadata_rows db).

#[global] Instance unique_together_dec db : Decision (unique_together db).
Proof. unfold unique_together. apply _. Defined.

(** The reference a [Metadatum] holds to an entity. *)
Definition entity_ref (obj : Obj) : ContentType * string := (get_for_model obj, pk obj).

(** ** Deleting instances

    Django's deletion collector, as far as it reaches [Metadatum]: through
    the two relations base.py declares, the foreign key [content_type] with
    [models.CASCADE] (line 28) and the [GenericRelation] of [HasMetadata]
    (lines 44-45), from the instances that are deleted together. *)

(** An instance of [ContentType] itself. *)
Definition is_content_type_row (o : Obj) : Prop :=
  app_label (get_for_model o) = "contenttypes" ∧ model (get_for_model o) = "contenttype".

#[global] Instance is_content_type_row_dec o : Decision (is_content_type_row o).
Proof. unfold is_content_type_row. apply _. Defined.

(** One round of the collector: to the instances collected so far it adds
    the rows that refer to one of them by a cascading foreign key. *)
Definition collect_step (objs collected : list Obj) : list Obj :=
  collected ++
  filter (λ o, (entity_ref o ∉ entity_ref <$> collected)
               ∧ Exists (λ r, r ∈ entity_ref <$> collected) (cascade_refs o))
         objs.

(** The instances deleted together with [obj]: [obj] and the rows that
    cascading foreign keys lead to from it, in any number of steps.  Every
    round that adds something adds a row not collected before, so as many
    rounds as there are rows reach them all. *)
Definition collect (db : Database) (obj : Obj) : list Obj :=
  Nat.iter (length (object_rows db)) (collect_step (object_rows db)) [obj].

(** Whether the deletion of the instance [o] takes the row [d] with it:
    [o] has the [GenericRelation] and [d] refers to it, or [o] is the
    [ContentType] row that [d.content_type] points to. *)
Definition deleted_with (o : Obj) (d : Metadatum) : Prop :=
  (inherits_HasMetadata (obj_class o) = true ∧ refers_to (get_for_model o) (pk o) d)
  ∨ (is_content_type_row o ∧ ct_pk (content_type d) = pk o).

#[global] Instance deleted_with_dec o d : Decision (deleted_with o d).
Proof. unfold deleted_with. apply _. Defined.

(** [obj.delete()] for a model instance other than a [Metadatum].  The
    collected instances go, and with them the [Metadatum] rows that one of
    them takes along.  Foreign keys declared with another [on_delete] are
    not followed; a deletion that [PROTECT] or [RESTRICT] refuses is not
    modelled (base.py declares neither). *)
Definition delete (obj : Obj) : ORM unit :=
  λ db,
    let collected := collect db obj in
    (Ok tt,
     {| metadata_rows :=
          filter (λ d, ¬ Exists (λ o, deleted_with o d) collected) (metadata_rows db);
        metadata_seq := metadata_seq db;
        object_rows :=
          filter (λ o, entity_ref o ∉ entity_ref <$> collected) (object_rows db) |}).

(** [datum.delete()] for a [Metadatum]: [content_object] is a
    [GenericForeignKey] and [content_type] a foreign key of the row itself,
    neither of which leads the collector to another row, and no model refers
    to [Metadatum]. *)
Definition Metadatum_delete (datum : Metadatum) : ORM unit :=
  λ db, (Ok tt,
         {| metadata_rows := filter (λ d, id d ≠ id datum) (metadata_rows db);
            metadata_seq := metadata_seq db;
            object_rows := object_rows db |}).

(** ** Writing one key *)

(** Modelled from the spec: [MetadataStore.set] of section 4.4, "upserts
    exactly one row (insert-or-replace keyed by the uniqueness invariant)".
    The repository's code that writes the keys of a form (forms.py) is not
    among the embedded sources; base.py only has [create] and [delete]. *)
Definition store_set (ct : ContentType) (oid k : string) (v : pyvalue) : ORM unit :=
  λ db,
    if decide ((ct, oid, k) ∈ unique_key <$> metadata_rows db) then
      (Ok tt,
       {| metadata_rows :=
            (λ d, if decide (unique_key d = (ct, oid, k))
                  then {| id := id d; content_type := content_type d;
                          object_id := object_id d; key := key d; value := v |}
                  else d) <$> metadata_rows db;
          metadata_seq := metadata_seq db;
          object_rows := object_rows db |})
    else
      (objects_create ct oid k v ≫= λ _, mret tt) db.

(** ** admin.py: the registry of field types (lines 39-56, 134-148) *)

(** A field model class: its class name and its [_meta.model_name], which
    Django sets to the class name lower-cased by [str.lower()]. *)
Record FieldModel : Type := {
  class_name : string;
  model_name : string
}.

#[global] Instance FieldModel_eq_dec : EqDecision FieldModel.
Proof. solve_decision. Defined.

(** Lower-casing of the letters A to Z; on a class name written in ASCII,
    as those of admin.py are, it is what [str.lower()] gives. *)
Definition lower_ascii (c : Ascii.ascii) : Ascii.ascii :=
  let n := Ascii.nat_of_ascii c in
  if (65 <=? n)%nat && (n <=? 90)%nat then Ascii.ascii_of_nat (n + 32) else c.

(** The class name with its letters A to Z lower-cased. *)
Fixpoint lower (s : string) : string :=
  match s with
  | EmptyString => EmptyString
  | String c s' => String (lower_ascii c) (lower s')
  end.

(** A model admin class for a field model. *)
Record AdminClass : Type := {
  admin_name : string;
  admin_bases : list string;
  base_model : FieldModel;
  inlines : list string
}.

Definition BooleanField : FieldModel :=
  {| class_name := "BooleanField"; model_name := "booleanfield" |}.
Definition ChoiceField : FieldModel :=
  {| class_name := "ChoiceField"; model_name := "choicefield" |}.
Definition MultipleChoiceField : FieldModel :=
  {| class_name := "MultipleChoiceField"; model_name := "multiplechoicefield" |}.

Definition ChoiceFieldAdmin : AdminClass :=
  {| admin_name := "ChoiceFieldAdmin"; admin_bases := ["FieldChildAdmin"];
     base_model := ChoiceField; inlines := ["UserChoiceInline"] |}.

Definition MultipleChoiceFieldAdmin : AdminClass :=
  {| admin_name := "MultipleChoiceFieldAdmin"; admin_bases := ["FieldChildAdmin"];
     base_model := MultipleChoiceField; inlines := ["UserChoiceInline"] |}.

(** The class attribute [FieldAdmin.child_models]. *)
Abbreviation Registry := (list (FieldModel * AdminClass)).

(** [FieldAdmin.register_field_type(model, model_admin = None)] *)
Definition register_field_type (model : FieldModel) (model_admin : option AdminClass)
  : St Registry unit :=
  λ child_models,
    let model_admin :=
      match model_admin with
      | None =>
          {| admin_name := model_name model +:+ "Admin";
             admin_bases := ["FieldChildAdmin"];
             base_model := model;
             inlines := [] |}
      | Some a => a
      end in
    (Ok tt, child_models ++ [(model, model_admin)]).

(** The registrations made when admin.py is imported, lines 134-148. *)
Definition register_all : St Registry unit :=
  register_field_type BooleanField None ≫= λ _,
  register_field_type
    {| class_name := "SingleLineTextField"; model_name := "singlelinetextfield" |} None ≫= λ _,
  register_field_type
    {| class_name := "MultiLineTextField"; model_name := "multilinetextfield" |} None ≫= λ _,
  register_field_type
    {| class_name := "EmailField"; model_name := "emailfield" |} None ≫= λ _,
  register_field_type
    {| class_name := "IPv4Field"; model_name := "ipv4field" |} None ≫= λ _,
  register_field_type
    {| class_name := "RegexField"; model_name := "regexfield" |} None ≫= λ _,
  register_field_type
    {| class_name := "SlugField"; model_name := "slugfield" |} None ≫= λ _,
  register_field_type
    {| class_name := "URLField"; model_name := "urlfield" |} None ≫= λ _,
  register_field_type
    {| class_name := "IntegerField"; model_name := "integerfield" |} None ≫= λ _,
  register_field_type
    {| class_name := "FloatField"; model_name := "floatfield" |} None ≫= λ _,
  register_field_type ChoiceField (Some ChoiceFieldAdmin) ≫= λ _,
  register_field_type MultipleChoiceField (Some MultipleChoiceFieldAdmin) ≫= λ _,
  register_field_type
    {| class_name := "DateField"; model_name := "datefield" |} None ≫= λ _,
  register_field_type
    {| class_name := "DateTimeField"; model_name := "datetimefield" |} None ≫= λ _,
  register_field_type
    {| class_name := "TimeField"; model_name := "timefield" |} None.

(** [FieldAdmin.child_models] once the module is loaded ([child_models = []]
    in the class body). *)
Definition child_models : Registry := (register_all []).2.

(** ** Validation of submitted metadata *)

(** The per-field errors of section 7 of the specification. *)
Inductive FieldError : Type :=
  | MissingRequiredError
  | InvalidValueError (reason : string).

(** Modelled from the spec: one compiled sub-rule of a [Schema] (section
    4.3): the field's name, its required flag and the validator closure built
    from its field type and configuration.  The form classes of the
    repository (forms.py and the field models) are not among the embedded
    sources. *)
Record Rule : Type := {
  rule_name : string;
  rule_required : bool;
  rule_validator : pyvalue → string + pyvalue
}.

(** Modelled from the spec: a compiled schema is the sequence of its rules in
    position order. *)
Abbreviation Schema := (list Rule).

(** Modelled from the spec: steps 1 to 3 of [Schema.validate] for one field,
    on the values and errors accumulated so far. *)
Definition validate_field (rawValues : gmap string pyvalue)
    (acc : list (string * pyvalue) * list (string * FieldError)) (r : Rule)
  : list (string * pyvalue) * list (string * FieldError) :=
  match rawValues !! rule_name r with
  | None =>
      if rule_required r
      then (acc.1, acc.2 ++ [(rule_name r, MissingRequiredError)])
      else acc
  | Some raw =>
      match rule_validator r raw with
      | inl reason => (acc.1, acc.2 ++ [(rule_name r, InvalidValueError reason)])
      | inr v => (acc.1 ++ [(rule_name r, v)], acc.2)
      end
  end.

(** Modelled from the spec: [Schema.validate(rawValues) -> (validatedValues,
    errors)], section 4.3: every field in position order; keys of
    [rawValues] that name no field are never looked at (step 4). *)
Definition validate (schema : Schema) (rawValues : gmap string pyvalue)
  : list (string * pyvalue) * list (string * FieldError) :=
  foldl (validate_field rawValues) ([], []) schema.

(** Modelled from the spec: step 5, the result is valid iff no per-field
    error was recorded. *)
Definition valid (result : list (string * pyvalue) * list (string * FieldError)) : bool :=
  match result.2 with
  | [] => true
  | _ :: _ => false
  end.

(** Whether a field, taken alone, is in error on a submission. *)
Definition field_fails (rawValues : gmap string pyvalue) (r : Rule) : bool :=
  match rawValues !! rule_name r with
  | None => rule_required r
  | Some raw => match rule_validator r raw with inl _ => true | inr _ => false end
  end.

(** *** Rules of some field types *)

(** Modelled from the spec: any submitted string is a valid text. *)
Definition text_rule (name : string) (required : bool) : Rule :=
  {| rule_name := name; rule_required := required;
     rule_validator := λ raw,
       match raw with
       | PyStr s => inr (PyStr s)
       | _ => inl "not a string"
       end |}.

(** Modelled from the spec: "single-choice rule requires the raw value equals
    exactly one stored choice value". *)
Definition choice_rule (name : string) (required : bool) (choices : list string) : Rule :=
  {| rule_name := name; rule_required := required;
     rule_validator := λ raw,
       match raw with
       | PyStr s => if decide (s ∈ choices) then inr (PyStr s)
                    else inl "not a valid choice"
       | _ => inl "not a valid choice"
       end |}.

Definition is_choice (choices : list string) (v : pyvalue) : bool :=
  match v with
  | PyStr s => bool_decide (s ∈ choices)
  | _ => false
  end.

(** Modelled from the spec: "multi-choice rule requires every element of a
    submitted list to be a member of the stored choice set, and returns the
    validated subset preserving submitted order". *)
Definition multiple_choice_rule (name : string) (required : bool) (choices : list string)
  : Rule :=
  {| rule_name := name; rule_required := required;
     rule_validator := λ raw,
       match raw with
       | PyList l => if forallb (is_choice choices) l then inr (PyList l)
                     else inl "not a valid choice"
       | _ => inl "not a valid choice"
       end |}.

(** Modelled from the spec: an integer with bounds, as in the example of
    section 8 ("below minimum"). *)
Definition integer_rule (name : string) (required : bool) (min max : Z) : Rule :=
  {| rule_name := name; rule_required := required;
     rule_validator := λ raw,
       match raw with
       | PyInt z => if (z <? min)%Z then inl "below minimum"
                    else if (max <? z)%Z then inl "above maximum"
                    else inr (PyInt z)
       | _ => inl "not an integer"
       end |}.

(** ** admin.py: [HasMetadataModelAdmin] (lines 177-358) *)

(** A request, as far as the metadata code reads it: the method and the
    [QueryDict] [request.POST]. *)
Record HttpRequest : Type := {
  method : string;
  POST : gmap string (list string)
}.

(** What admin.py calls on a metadata form class [cls]: the form bound by
    [cls(data = request.POST, prefix = 'metadata')] answers [is_valid()],
    has an [errors] dictionary (field name to messages, in order) and is
    saved onto an object by [save(obj)].  The class itself (forms.py) is not
    among the embedded sources, so it is an interface. *)
Class MetadataFormClass (F : Type) : Type := {
  is_valid : F → gmap string (list string) → string → bool;
  errors : F → gmap string (list string) → string → list (string * list string);
  save : F → gmap string (list string) → string → Obj → ORM unit
}.

(** A form instance: bound to submitted data, or unbound with initial data. *)
Inductive FormInstance (F : Type) : Type :=
  | Bound (cls : F) (data : gmap string (list string)) (prefix : string)
  | Unbound (cls : F) (initial : gmap string pyvalue) (prefix : string).
Arguments Bound {F} cls data prefix.
Arguments Unbound {F} cls initial prefix.

(** [metadata_form.errors]; an unbound form has none. *)
Definition form_errors {F : Type} `{MetadataFormClass F} (f : FormInstance F)
  : list (string * list string) :=
  match f with
  | Bound cls data prefix => errors cls data prefix
  | Unbound _ _ _ => []
  end.

Record HasMetadataModelAdmin (F : Type) : Type := {
  metadata_form_class : option F
}.
Arguments metadata_form_class {F} _.

(** What [response_add] answers: the response of the parent class, or the
    change form rendered with a context, of which the [errors] entry and the
    metadata form are kept. *)
Inductive Response (F : Type) : Type :=
  | SuperResponse
  | ChangeForm (metadata_form : FormInstance F) (ctx_errors : list (list string)).
Arguments SuperResponse {F}.
Arguments ChangeForm {F} metadata_form ctx_errors.

Section Admin.
Context {F : Type} `{MetadataFormClass F}.
Context {ParentForm : Type}.

(** [admin.ModelAdmin.save_model], which saves the object and answers the
    saved instance (the code's [obj], updated in place). *)
Variable super_save_model : HttpRequest → Obj → ParentForm → bool → ORM Obj.

Definition get_metadata_form_class (self : HasMetadataModelAdmin F)
    (request : HttpRequest) (obj : Obj) : option F :=
  metadata_form_class self.

(** [save_model], lines 204-217. *)
Definition save_model (self : HasMetadataModelAdmin F) (request : HttpRequest)
    (obj : Obj) (form : ParentForm) (change : bool) : ORM unit :=
  match get_metadata_form_class self request obj with
  | None =>
      (* If there is no metadata form, behave as normal *)
      super_save_model request obj form change ≫= λ _, mret tt
  | Some metadata_form_class =>
      (* If the metadata is valid, save the object and the metadata *)
      if decide ("_has_metadata" ∈ dom (POST request)) then
        if is_valid metadata_form_class (POST request) "metadata" then
          super_save_model request obj form change ≫= λ obj,
          save metadata_form_class (POST request) "metadata" obj
        else mret tt
      else mret tt
  end.

(** [response_add], lines 219-285, given the errors of the parent form
    ([helpers.AdminErrorList(parent_form, [])]). *)
Definition response_add (self : HasMetadataModelAdmin F) (request : HttpRequest)
    (obj : Obj) (parent_form_errors : list (string * list string))
  : ORM (Response F) :=
  match get_metadata_form_class self request obj with
  | None => mret SuperResponse
  | Some metadata_form_class =>
      (if decide ("_has_metadata" ∈ dom (POST request)) then
         if is_valid metadata_form_class (POST request) "metadata"
         then mret None
         else mret (Some (Bound metadata_form_class (POST request) "metadata"))
       else
         get_metadata_form_initial_data obj ≫= λ initial,
         mret (Some (Unbound metadata_form_class initial "metadata")))
      ≫= λ r : option (FormInstance F),
      match r with
      | None => mret SuperResponse
      | Some metadata_form =>
          let errors0 := parent_form_errors.*2 in
          let errors1 :=
            match form_errors metadata_form with
            | [] => errors0
            | _ :: _ => errors0 ++ (form_errors metadata_form).*2
            end in
          mret (ChangeForm metadata_form errors1)
      end
  end.

(** [render_change_form], lines 331-358: the [metadata_form] and [errors]
    entries of the context handed to the parent class.  With [change] set
    and no metadata form class, line 350 reads a local that was never
    bound. *)
Definition render_change_form (self : HasMetadataModelAdmin F) (request : HttpRequest)
    (ctx_metadata_form : option (FormInstance F)) (ctx_errors : list (list string))
    (change : bool) (obj : Obj)
  : ORM (option (FormInstance F) * list (list string)) :=
  if change then
    match get_metadata_form_class self request obj with
    | Some metadata_form_class =>
        (if decide (method request = "POST") then
           (* Force a validation - we don't really care about the result here *)
           let _ := is_valid metadata_form_class (POST request) "metadata" in
           mret (Bound metadata_form_class (POST request) "metadata")
         else
           get_metadata_form_initial_data obj ≫= λ initial,
           mret (Unbound metadata_form_class initial "metadata"))
        ≫= λ metadata_form : FormInstance F,
        mret (Some metadata_form, ctx_errors ++ (form_errors metadata_form).*2)
    | None => λ db, (Raise UnboundLocalError, db)
    end
  else mret (ctx_metadata_form, ctx_errors).
End Admin.

(** What [response_change] answers: the response of the parent class, or
    the change form rendered by [render_change_form] with the context's
    [metadata_form] and [errors] entries. *)
Inductive ChangeResponse (F : Type) : Type :=
  | SuperResponseChange
  | RenderedChangeForm (ctx_metadata_form : option (FormInstance F))
                       (ctx_errors : list (list string)).
Arguments SuperResponseChange {F}.
Arguments RenderedChangeForm {F} ctx_metadata_form ctx_errors.

(** [response_change], lines 287-329, given the errors of the parent form
    ([helpers.AdminErrorList(parent_form, [])]); the context it builds has no
    [metadata_form] entry before [render_change_form] sets one. *)
Definition response_change {F : Type} `{MetadataFormClass F}
    (self : HasMetadataModelAdmin F) (request : HttpRequest) (obj : Obj)
    (parent_form_errors : list (string * list string))
  : ORM (ChangeResponse F) :=
  match get_metadata_form_class self request obj with
  | None => mret SuperResponseChange
  | Some metadata_form_class =>
      if (if decide ("_has_metadata" ∈ dom (POST request))
          then is_valid metadata_form_class (POST request) "metadata"
          else false)
      then mret SuperResponseChange
      else
        render_change_form self request None (parent_form_errors.*2) true obj
        ≫= λ ctx, mret (RenderedChangeForm ctx.1 ctx.2)
  end.

(** *** A form class compiled from a schema *)

(** Modelled from the spec: the raw value submitted for a field, read from
    the request data under the form's prefix: one value is a string, several
    are a list. *)
Definition raw_value (data : gmap string (list string)) (prefix name : string)
  : option pyvalue :=
  match data !! (prefix +:+ "-" +:+ name) with
  | None => None
  | Some [s] => Some (PyStr s)
  | Some l => Some (PyList (PyStr <$> l))
  end.

Definition raw_values (schema : Schema) (data : gmap string (list string))
    (prefix : string) : gmap string pyvalue :=
  list_to_map (omap (λ r, (λ v, (rule_name r, v)) <$> raw_value data prefix (rule_name r))
                    schema).

Definition error_message (e : FieldError) : string :=
  match e with
  | MissingRequiredError => "This field is required."
  | InvalidValueError reason => reason
  end.

(** Modelled from the spec: the coordinator's persist step (section 4.5), "for
    every field name present in the validated map, call [MetadataStore.set]". *)
Definition persist (validated : list (string * pyvalue)) (obj : Obj) : ORM unit :=
  for_ validated (λ kv, store_set (get_for_model obj) (pk obj) kv.1 kv.2).

#[global] Instance Schema_form : MetadataFormClass Schema := {|
  is_valid schema data prefix := valid (validate schema (raw_values schema data prefix));
  errors schema data prefix :=
    (λ e, (e.1, [error_message e.2])) <$> (validate schema (raw_values schema data prefix)).2;
  save schema data prefix obj :=
    persist (validate schema (raw_values schema data prefix)).1 obj
|}.

(** [admin.ModelAdmin.save_model]: [obj.save()]. *)
Definition ModelAdmin_save_model (request : HttpRequest) (obj : Obj) (form : unit)
    (change : bool) : ORM Obj :=
  λ db, (Ok obj,
         {| metadata_rows := metadata_rows db;
            metadata_seq := metadata_seq db;
            object_rows := if decide (obj ∈ object_rows db) then object_rows db
                           else object_rows db ++ [obj] |}).

(** ** Auxiliary definitions for the statements *)

(** The rows [copy_metadata_to] creates for the rows [data], from the
    sequence value [n] on. *)
Fixpoint copies (ct : ContentType) (oid : string) (n : N) (data : list Metadatum)
  : list Metadatum :=
  match data with
  | [] => []
  | d :: data' =>
      {| id := n; content_type := ct; object_id := oid; key := key d; value := value d |}
      :: copies ct oid (N.succ n) data'
  end.

(** The body of the loop of [copy_metadata_to]. *)
Abbreviation create_copy ct oid :=
  (λ datum : Metadatum,
     objects_create ct oid (key datum) (value datum) ≫= λ _, mret tt).

(** ** A small database *)

Definition project_ct : ContentType :=
  {| ct_pk := "7"; app_label := "projects"; model := "project" |}.
Definition note_ct : ContentType :=
  {| ct_pk := "8"; app_label := "notes"; model := "note" |}.

(** A model that inherits [HasMetadata], and one that does not. *)
Definition Project : ModelClass := {| model_ct := project_ct; inherits_HasMetadata := true |}.
Definition Note : ModelClass := {| model_ct := note_ct; inherits_HasMetadata := false |}.

Definition project1 : Obj := {| obj_class := Project; pk := "1"; cascade_refs := [] |}.
Definition project2 : Obj := {| obj_class := Project; pk := "2"; cascade_refs := [] |}.
Definition note1 : Obj := {| obj_class := Note; pk := "1"; cascade_refs := [] |}.

Definition datum1 : Metadatum :=
  {| id := 1; content_type := project_ct; object_id := "1";
     key := "title"; value := PyStr "Survey" |}.
Definition datum2 : Metadatum :=
  {| id := 2; content_type := project_ct; object_id := "1";
     key := "funder"; value := PyNone |}.
Definition datum3 : Metadatum :=
  {| id := 3; content_type := project_ct; object_id := "2";
     key := "title"; value := PyStr "Old" |}.
Definition datum4 : Metadatum :=
  {| id := 4; content_type := note_ct; object_id := "1";
     key := "colour"; value := PyStr "red" |}.

Definition db0 : Database :=
  {| metadata_rows := [datum1; datum2; datum3; datum4];
     metadata_seq := 5;
     object_rows := [project1; project2; note1] |}.

(** The model [ContentType] and the row of the content type of [Project]. *)
Definition contenttype_ct : ContentType :=
  {| ct_pk := "1"; app_label := "contenttypes"; model := "contenttype" |}.
Definition ContentTypeModel : ModelClass :=
  {| model_ct := contenttype_ct; inherits_HasMetadata := false |}.
Definition project_ct_row : Obj :=
  {| obj_class := ContentTypeModel; pk := "7"; cascade_refs := [] |}.

(** A model with metadata whose instances belong to a note, by a foreign key
    with [on_delete = CASCADE]; a table with a task of [note1]. *)
Definition task_ct : ContentType :=
  {| ct_pk := "9"; app_label := "tasks"; model := "task" |}.
Definition Task : ModelClass := {| model_ct := task_ct; inherits_HasMetadata := true |}.
Definition task1 : Obj :=
  {| obj_class := Task; pk := "1"; cascade_refs := [entity_ref note1] |}.
Definition datum5 : Metadatum :=
  {| id := 5; content_type := task_ct; object_id := "1";
     key := "due"; value := PyStr "May" |}.
Definition db_tasks : Database :=
  {| metadata_rows := [datum4; datum5];
     metadata_seq := 6;
     object_rows := [note1; task1] |}.

(** The form "Application" of section 8 of the specification. *)
Definition application : Schema :=
  [integer_rule "age" true 18 120; choice_rule "country" false ["UK"; "US"]].

(** A form with a required country and an optional title, and an admin
    class that uses it. *)
Definition project_form : Schema :=
  [choice_rule "country" true ["UK"; "US"]; text_rule "title" false].

Definition project_admin : HasMetadataModelAdmin Schema :=
  {| metadata_form_class := Some project_form |}.

Definition post_invalid : HttpRequest :=
  {| method := "POST";
     POST := {[ "_has_metadata" := ["1"]; "metadata-country" := ["FR"];
                "metadata-title" := ["New"] ]} |}.

Definition post_valid : HttpRequest :=
  {| method := "POST";
     POST := {[ "_has_metadata" := ["1"]; "metadata-country" := ["UK"];
                "metadata-title" := ["New"] ]} |}.

Definition post_unmarked : HttpRequest :=
  {| method := "POST";
     POST := {[ "metadata-country" := ["UK"]; "metadata-title" := ["New"] ]} |}.

(** * Properties *)

(** ** The table operations *)

Lemma objects_create_fresh ct oid k v db :
  (ct, oid, k) ∉ unique_key <$> metadata_rows db →
  objects_create ct oid k v db =
    (Ok {| id := metadata_seq db; content_type := ct; object_id := oid;
           key := k; value := v |},
     {| metadata_rows := metadata_rows db ++
          [{| id := metadata_seq db; content_type := ct; object_id := oid;
              key := k; value := v |}];
        metadata_seq := N.succ (metadata_seq db);
        object_rows := object_rows db |}).
Proof.
  intros Hfresh. unfold objects_create.
  destruct (decide _) as [Hin|_]; [contradiction|].
  by destruct v.
Qed.

Lemma objects_create_taken ct oid k v db :
  (ct, oid, k) ∈ unique_key <$> metadata_rows db →
  objects_create ct oid k v db = (Raise IntegrityError, db).
Proof.
  intros Hin. unfold objects_create. by destruct (decide _).
Qed.

Lemma copies_refers_to ct oid n data :
  Forall (refers_to ct oid) (copies ct oid n data).
Proof.
  revert n. induction data as [|d data IH]; intros n; simpl; constructor; auto.
  by split.
Qed.

Lemma bind_ok {S A B : Type} (c : St S A) (f : A → St S B) s a s' :
  c s = (Ok a, s') → (c ≫= f) s = f a s'.
Proof. intros Hc. unfold mbind, St_bind. by rewrite Hc. Qed.

Lemma bind_raise {S A B : Type} (c : St S A) (f : A → St S B) s e s' :
  c s = (Raise e, s') → (c ≫= f) s = (Raise e, s').
Proof. intros Hc. unfold mbind, St_bind. by rewrite Hc. Qed.

Lemma create_copy_fresh ct oid d db :
  (ct, oid, key d) ∉ unique_key <$> metadata_rows db →
  create_copy ct oid d db =
    (Ok tt,
     {| metadata_rows := metadata_rows db ++ copies ct oid (metadata_seq db) [d];
        metadata_seq := N.succ (metadata_seq db);
        object_rows := object_rows db |}).
Proof.
  intros Hfresh. cbv beta. erewrite bind_ok by (by apply objects_create_fresh). done.
Qed.

Lemma create_copy_taken ct oid d db :
  (ct, oid, key d) ∈ unique_key <$> metadata_rows db →
  create_copy ct oid d db = (Raise IntegrityError, db).
Proof.
  intros Hin. cbv beta. by erewrite bind_raise by (by apply objects_create_taken).
Qed.

(** The loop of [copy_metadata_to] only ever appends rows of the
    destination, whether it ends normally or with an exception. *)
Lemma for_create_appends ct oid (data : list Metadatum) db :
  ∃ news,
    metadata_rows (for_ data (create_copy ct oid) db).2 = metadata_rows db ++ news
    ∧ Forall (refers_to ct oid) news
    ∧ object_rows (for_ data (create_copy ct oid) db).2 = object_rows db.
Proof.
  revert db. induction data as [|d data IH]; intros db.
  - exists []. simpl. by rewrite app_nil_r.
  - destruct (decide ((ct, oid, key d) ∈ unique_key <$> metadata_rows db)) as [Hin|Hout].
    + exists []. cbn [for_].
      erewrite bind_raise by (by apply create_copy_taken). simpl.
      by rewrite app_nil_r.
    + cbn [for_]. erewrite bind_ok by (by apply create_copy_fresh).
      match goal with |- context [for_ data _ ?s] => destruct (IH s) as (news & Hr & Hn & Ho) end.
      eexists (_ :: news). rewrite Hr, Ho. cbn [metadata_rows object_rows copies].
      rewrite <- app_assoc. split; [done|]. split; [|done].
      constructor; [by split|done].
Qed.

(** With fresh and pairwise distinct keys, the loop succeeds and appends one
    copy per row, in order. *)
Lemma for_create_ok ct oid (data : list Metadatum) db :
  NoDup (key <$> data) →
  (∀ d, d ∈ data → (ct, oid, key d) ∉ unique_key <$> metadata_rows db) →
  for_ data (create_copy ct oid) db
  = (Ok tt,
     {| metadata_rows := metadata_rows db ++ copies ct oid (metadata_seq db) data;
        metadata_seq := (metadata_seq db + N.of_nat (length data))%N;
        object_rows := object_rows db |}).
Proof.
  revert db. induction data as [|d data IH]; intros db Hnd Hfresh.
  - simpl. unfold mret, St_ret. rewrite app_nil_r, N.add_0_r. by destruct db.
  - rewrite fmap_cons in Hnd. apply NoDup_cons in Hnd as [Hd Hnd].
    cbn [for_]. erewrite bind_ok by (apply create_copy_fresh, Hfresh; left).
    rewrite IH; cbn [metadata_rows metadata_seq object_rows copies length].
    + f_equal. f_equal; [by rewrite <- app_assoc | lia].
    + done.
    + intros d' Hd'. rewrite fmap_app. cbn [fmap list_fmap]. rewrite elem_of_app.
      intros [Hin|Hin].
      * by apply (Hfresh d'); [right|].
      * apply list_elem_of_singleton in Hin. unfold unique_key in Hin. simpl in Hin.
        apply Hd. apply list_elem_of_fmap. exists d'. split; [congruence|done].
Qed.

(** ** [copy_metadata_to] *)

Lemma filter_refers_other ct oid ct' oid' (rows : list Metadatum) :
  (ct, oid) ≠ (ct', oid') →
  filter (refers_to ct oid) (filter (λ d, ¬ refers_to ct' oid' d) rows)
  = filter (refers_to ct oid) rows.
Proof.
  intros Hne. induction rows as [|d rows IH]; [done|].
  rewrite !filter_cons.
  destruct (decide (¬ refers_to ct' oid' d)) as [Hn|Hn].
  - rewrite filter_cons. by rewrite IH.
  - rewrite IH. destruct (decide (refers_to ct oid d)) as [Hr|Hr]; [|done].
    exfalso. apply dec_stable in Hn. destruct Hn, Hr. congruence.
Qed.

Lemma filter_refers_deleted ct oid (rows : list Metadatum) :
  filter (refers_to ct oid) (filter (λ d, ¬ refers_to ct oid d) rows) = [].
Proof.
  induction rows as [|d rows IH]; [done|].
  rewrite filter_cons. destruct (decide (¬ refers_to ct oid d)) as [Hn|Hn]; [|done].
  rewrite filter_cons. by destruct (decide (refers_to ct oid d)).
Qed.

Lemma filter_refers_all ct oid (rows : list Metadatum) :
  Forall (refers_to ct oid) rows → filter (refers_to ct oid) rows = rows.
Proof.
  induction 1 as [|d rows Hd _ IH]; [done|].
  rewrite filter_cons. destruct (decide _); [by rewrite IH|done].
Qed.

Lemma filter_refers_none ct oid ct' oid' (rows : list Metadatum) :
  (ct, oid) ≠ (ct', oid') →
  Forall (refers_to ct' oid') rows → filter (refers_to ct oid) rows = [].
Proof.
  intros Hne. induction 1 as [|d rows Hd _ IH]; [done|].
  rewrite filter_cons. destruct (decide (refers_to ct oid d)) as [Hr|Hr]; [|done].
  destruct Hd, Hr. congruence.
Qed.

(** Within the rows of one entity the constraint makes the keys distinct. *)
Lemma unique_keys_of_entity ct oid (rows : list Metadatum) :
  NoDup (unique_key <$> rows) → NoDup (key <$> filter (refers_to ct oid) rows).
Proof.
  induction rows as [|d rows IH]; [constructor|].
  rewrite fmap_cons, NoDup_cons. intros [Hd Hnd]. rewrite filter_cons.
  destruct (decide (refers_to ct oid d)) as [[Hct Hoid]|_]; [|by apply IH].
  rewrite fmap_cons. apply NoDup_cons. split; [|by apply IH].
  intros Hin. apply list_elem_of_fmap in Hin as (d' & Hk & Hd').
  apply list_elem_of_filter in Hd' as [[Hct' Hoid'] Hd'].
  apply Hd. apply list_elem_of_fmap. exists d'. split; [|done].
  unfold unique_key. congruence.
Qed.

Lemma dict_of_rows_acc_copies ct oid n (data : list Metadatum) (acc : gmap string pyvalue) :
  foldl (λ acc d, <[key d := value d]> acc) acc (copies ct oid n data)
  = foldl (λ acc d, <[key d := value d]> acc) acc data.
Proof.
  revert n acc. induction data as [|d data IH]; intros n acc; [done|].
  simpl. apply IH.
Qed.

Lemma dict_of_rows_copies ct oid n data :
  dict_of_rows (copies ct oid n data) = dict_of_rows data.
Proof. apply dict_of_rows_acc_copies. Qed.

(** What a copy between two distinct entities does to a table that satisfies
    the constraint: it succeeds, the destination's rows are replaced by one
    copy per row of the source, everything else stays. *)
Lemma copy_metadata_to_distinct self obj db :
  unique_together db →
  entity_ref self ≠ entity_ref obj →
  copy_metadata_to self obj db =
    (Ok tt,
     {| metadata_rows :=
          filter (λ d, ¬ refers_to (get_for_model obj) (pk obj) d) (metadata_rows db)
          ++ copies (get_for_model obj) (pk obj) (metadata_seq db) (rows_of db self);
        metadata_seq := (metadata_seq db + N.of_nat (length (rows_of db self)))%N;
        object_rows := object_rows db |}).
Proof.
  intros Hu Hne. unfold copy_metadata_to.
  erewrite bind_ok by reflexivity.
  erewrite bind_ok by reflexivity.
  cbn [metadata_rows]. rewrite filter_refers_other by done.
  rewrite for_create_ok; [done|..].
  - by apply unique_keys_of_entity.
  - intros d Hd Hin. cbn [metadata_rows] in Hin.
    apply list_elem_of_fmap in Hin as (d' & Hk & Hd').
    apply list_elem_of_filter in Hd' as [Hn Hd'].
    apply Hn. unfold unique_key in Hk. split; congruence.
Qed.

(** A copy of an entity onto itself: the rows are deleted before they are
    read, so nothing is left to copy. *)
Lemma copy_metadata_to_self self obj db :
  entity_ref self = entity_ref obj →
  copy_metadata_to self obj db =
    (Ok tt,
     {| metadata_rows :=
          filter (λ d, ¬ refers_to (get_for_model obj) (pk obj) d) (metadata_rows db);
        metadata_seq := metadata_seq db;
        object_rows := object_rows db |}).
Proof.
  intros Heq. unfold copy_metadata_to.
  erewrite bind_ok by reflexivity.
  erewrite bind_ok by reflexivity.
  cbn [metadata_rows]. injection Heq as -> ->.
  by rewrite filter_refers_deleted.
Qed.

(** After a copy between distinct entities, reading the destination gives
    what reading the source gave before. *)
Lemma copy_metadata_to_distinct_get self obj db :
  unique_together db →
  entity_ref self ≠ entity_ref obj →
  (copy_metadata_to self obj db).1 = Ok tt
  ∧ metadata_of (copy_metadata_to self obj db).2 obj = metadata_of db self
  ∧ (key <$> rows_of (copy_metadata_to self obj db).2 obj) = (key <$> rows_of db self)
  ∧ (value <$> rows_of (copy_metadata_to self obj db).2 obj) = (value <$> rows_of db self).
Proof.
  intros Hu Hne. rewrite copy_metadata_to_distinct by done.
  split; [done|]. unfold metadata_of, rows_of. cbn [snd metadata_rows].
  rewrite filter_app, filter_refers_deleted, app_nil_l.
  rewrite filter_refers_all by apply copies_refers_to.
  split; [apply dict_of_rows_copies|].
  generalize (metadata_seq db).
  induction (filter (refers_to (get_for_model self) (pk self)) (metadata_rows db))
    as [|d l IH]; intros n; [done|].
  cbn [copies]. rewrite !fmap_cons. destruct (IH (N.succ n)) as [-> ->]. done.
Qed.

(** ** The [unique_together] constraint *)

Lemma for_invariant {S A : Type} (P : S → Prop) (xs : list A) (body : A → St S unit) :
  (∀ x s, P s → P (body x s).2) → ∀ s, P s → P (for_ xs body s).2.
Proof.
  intros Hbody. induction xs as [|x xs IH]; intros s Hs; [done|].
  cbn [for_]. unfold mbind, St_bind.
  specialize (Hbody x s Hs). destruct (body x s) as [[[]|e] s']; simpl in *; auto.
Qed.

Lemma NoDup_fmap_filter {A B : Type} (f : A → B) (P : A → Prop)
    `{!∀ x, Decision (P x)} (l : list A) :
  NoDup (f <$> l) → NoDup (f <$> filter P l).
Proof.
  intros Hnd. eapply sublist_NoDup; [exact Hnd|].
  apply fmap_sublist, sublist_filter.
Qed.

Lemma NoDup_fmap_eq {A B : Type} (f : A → B) (l : list A) x y :
  NoDup (f <$> l) → x ∈ l → y ∈ l → f x = f y → x = y.
Proof.
  induction l as [|a l IH]; [by intros _ ?%elem_of_nil|].
  rewrite fmap_cons, NoDup_cons. intros [Ha Hnd] Hx Hy Hxy.
  apply elem_of_cons in Hx as [->|Hx]; apply elem_of_cons in Hy as [->|Hy]; auto.
  - exfalso. apply Ha. rewrite Hxy. by apply list_elem_of_fmap_2.
  - exfalso. apply Ha. rewrite <- Hxy. by apply list_elem_of_fmap_2.
Qed.

Lemma objects_create_unique ct oid k v db :
  unique_together db → unique_together (objects_create ct oid k v db).2.
Proof.
  intros Hu. destruct (decide ((ct, oid, k) ∈ unique_key <$> metadata_rows db)) as [Hin|Hout].
  - by rewrite objects_create_taken.
  - rewrite objects_create_fresh by done. unfold unique_together. cbn [snd metadata_rows].
    rewrite fmap_app. apply NoDup_app. split; [done|]. split; [|apply NoDup_singleton].
    intros x Hx Hx'. apply list_elem_of_singleton in Hx'. by subst x.
Qed.

Lemma objects_filter_delete_unique ct oid db :
  unique_together db → unique_together (objects_filter_delete ct oid db).2.
Proof. intros Hu. by apply NoDup_fmap_filter. Qed.

Lemma copy_metadata_to_unique self obj db :
  unique_together db → unique_together (copy_metadata_to self obj db).2.
Proof.
  intros Hu. unfold copy_metadata_to.
  erewrite bind_ok by reflexivity. erewrite bind_ok by reflexivity.
  apply for_invariant.
  - intros d s Hs. unfold mbind, St_bind.
    pose proof (objects_create_unique (get_for_model obj) (pk obj) (key d) (value d) s Hs) as Hc.
    by destruct (objects_create _ _ _ _ s) as [[a|e] s'].
  - by apply objects_filter_delete_unique.
Qed.

Lemma store_set_keys_update ct oid k v (rows : list Metadatum) :
  unique_key <$>
    ((λ d, if decide (unique_key d = (ct, oid, k))
           then {| id := id d; content_type := content_type d;
                   object_id := object_id d; key := key d; value := v |}
           else d) <$> rows)
  = unique_key <$> rows.
Proof.
  rewrite <- list_fmap_compose. apply list_fmap_ext. intros i d _. simpl.
  by destruct (decide _).
Qed.

Lemma store_set_unique ct oid k v db :
  unique_together db → unique_together (store_set ct oid k v db).2.
Proof.
  intros Hu. unfold store_set.
  destruct (decide ((ct, oid, k) ∈ unique_key <$> metadata_rows db)) as [Hin|Hout].
  - unfold unique_together. cbn [snd metadata_rows]. by rewrite store_set_keys_update.
  - unfold mbind, St_bind.
    pose proof (objects_create_unique ct oid k v db Hu) as Hc.
    by destruct (objects_create ct oid k v db) as [[a|e] s'].
Qed.

(** After [store_set] the key is present. *)
Lemma store_set_present ct oid k v db :
  (ct, oid, k) ∈ unique_key <$> metadata_rows (store_set ct oid k v db).2.
Proof.
  unfold store_set.
  destruct (decide ((ct, oid, k) ∈ unique_key <$> metadata_rows db)) as [Hin|Hout].
  - cbn [snd metadata_rows]. by rewrite store_set_keys_update.
  - erewrite bind_ok by (by apply objects_create_fresh).
    cbn [mret St_ret snd metadata_rows]. rewrite fmap_app, elem_of_app. right.
    apply list_elem_of_singleton. done.
Qed.

(** Every row of a key that [store_set] has just written holds the value. *)
Lemma store_set_value ct oid k v db d :
  d ∈ metadata_rows (store_set ct oid k v db).2 →
  unique_key d = (ct, oid, k) → value d = v.
Proof.
  unfold store_set.
  destruct (decide ((ct, oid, k) ∈ unique_key <$> metadata_rows db)) as [Hin|Hout].
  - cbn [snd metadata_rows]. intros Hd Hk.
    apply list_elem_of_fmap in Hd as (d' & -> & Hd').
    destruct (decide (unique_key d' = (ct, oid, k))); [done|]. contradiction.
  - erewrite bind_ok by (by apply objects_create_fresh).
    cbn [mret St_ret snd metadata_rows]. intros Hd Hk.
    apply elem_of_app in Hd as [Hd|Hd].
    + exfalso. apply Hout. rewrite <- Hk. by apply list_elem_of_fmap_2.
    + apply list_elem_of_singleton in Hd. by subst d.
Qed.

(** A second [store_set] of the same value changes nothing. *)
Lemma store_set_twice ct oid k v db :
  store_set ct oid k v (store_set ct oid k v db).2 = (Ok tt, (store_set ct oid k v db).2).
Proof.
  pose proof (store_set_present ct oid k v db) as Hin.
  pose proof (store_set_value ct oid k v db) as Hval.
  destruct (store_set ct oid k v db) as [r db1]. cbn [snd] in *.
  unfold store_set. destruct (decide _) as [_|]; [|contradiction].
  f_equal. destruct db1 as [rows seq objs]. cbn [metadata_rows metadata_seq object_rows] in *.
  f_equal. rewrite <- (list_fmap_id rows) at 2.
  apply list_fmap_ext. intros i d Hd. destruct (decide _) as [Hk|]; [|done].
  assert (value d = v) as Hv by (apply Hval; [by eapply list_elem_of_lookup_2|done]).
  destruct d. simpl in *. by subst.
Qed.

Lemma no_row (rows : list Metadatum) ck :
  ck ∉ unique_key <$> rows → filter (λ d, unique_key d = ck) rows = [].
Proof.
  induction rows as [|a rows IH]; [done|].
  rewrite fmap_cons, not_elem_of_cons. intros [Hne Hout].
  rewrite filter_cons. destruct (decide (unique_key a = ck)); [congruence|by apply IH].
Qed.

(** In a table that satisfies the constraint, a key that is present has
    exactly one row. *)
Lemma unique_row (rows : list Metadatum) ck :
  NoDup (unique_key <$> rows) → ck ∈ unique_key <$> rows →
  ∃ d, d ∈ rows ∧ filter (λ d, unique_key d = ck) rows = [d].
Proof.
  induction rows as [|a rows IH]; [by intros _ ?%elem_of_nil|].
  rewrite fmap_cons, NoDup_cons. intros [Ha Hnd] Hin.
  rewrite filter_cons. destruct (decide (unique_key a = ck)) as [Heq|Hne].
  - exists a. split; [left|]. subst ck. by rewrite no_row.
  - apply elem_of_cons in Hin as [Heq|Hin]; [congruence|].
    destruct (IH Hnd Hin) as (d & Hd & Hf). exists d. split; [by right|done].
Qed.

(** ** Claims about the metadata store *)

(** C1 (evaluated where it fails): copying the metadata of [project1] onto
    [project1] itself.  Line 54 deletes the destination's rows before line 55
    reads the source's, which are the same rows: the call ends normally, and
    the entity that had the keys [title] and [funder] is left with no
    metadata at all, instead of the mapping it had at the time of the copy. *)
Theorem copy_metadata_to_itself_loses_metadata :
  metadata_of db0 project1 = {[ "title" := PyStr "Survey"; "funder" := PyNone ]}
  ∧ copy_metadata_to project1 project1 db0 =
      (Ok tt, {| metadata_rows := [datum3; datum4]; metadata_seq := 5;
                 object_rows := [project1; project2; note1] |})
  ∧ metadata_of (copy_metadata_to project1 project1 db0).2 project1 = ∅
  ∧ metadata_of (copy_metadata_to project1 project1 db0).2 project1
      ≠ metadata_of db0 project1.
Proof.
  assert (metadata_of db0 project1 !! "title" = Some (PyStr "Survey")) as Ht
    by (by vm_compute).
  split; [by vm_compute|]. split; [by vm_compute|].
  assert (metadata_of (copy_metadata_to project1 project1 db0).2 project1 = ∅) as He
    by (by vm_compute).
  split; [done|]. rewrite He. intros Heq. rewrite <- Heq in Ht.
  by rewrite lookup_empty in Ht.
Qed.

(** C9: [copy_metadata_to] changes the rows of the destination only.  For
    every table, every source and destination, and every entity whose
    (content type, object id) pair is not the destination's, the rows of
    that entity are the same after the call as before, however the call
    ends; so are the source's own rows when the source is another entity,
    and the rows of the other models. *)
Theorem copy_metadata_to_frame (self obj other : Obj) (db : Database) :
  entity_ref other ≠ entity_ref obj →
  rows_of (copy_metadata_to self obj db).2 other = rows_of db other
  ∧ (entity_ref self ≠ entity_ref obj →
     rows_of (copy_metadata_to self obj db).2 self = rows_of db self)
  ∧ object_rows (copy_metadata_to self obj db).2 = object_rows db.
Proof.
  intros Hne.
  assert (∀ o, entity_ref o ≠ entity_ref obj →
          rows_of (copy_metadata_to self obj db).2 o = rows_of db o
          ∧ object_rows (copy_metadata_to self obj db).2 = object_rows db) as Hall.
  { intros o Ho. unfold copy_metadata_to.
    erewrite bind_ok by reflexivity. erewrite bind_ok by reflexivity.
    match goal with |- context [for_ ?data _ ?s] =>
      destruct (for_create_appends (get_for_model obj) (pk obj) data s)
        as (news & Hr & Hn & Hobj) end.
    unfold rows_of. rewrite Hr, Hobj. cbn [metadata_rows object_rows].
    split; [|done].
    rewrite filter_app, filter_refers_other by done.
    rewrite (filter_refers_none _ _ _ _ news) by done. by rewrite app_nil_r. }
  split; [by apply Hall|]. split; [by intros; apply Hall|by apply (Hall other)].
Qed.

Lemma copy_metadata_to_frame_witness :
  entity_ref project1 ≠ entity_ref project2
  ∧ rows_of (copy_metadata_to project1 project2 db0).2 project1 = rows_of db0 project1
  ∧ (entity_ref project1 ≠ entity_ref project2 →
     rows_of (copy_metadata_to project1 project2 db0).2 project1 = rows_of db0 project1)
  ∧ object_rows (copy_metadata_to project1 project2 db0).2 = object_rows db0.
Proof.
  split; [discriminate|].
  apply (copy_metadata_to_frame project1 project2 project1 db0). discriminate.
Defined.

(** C3: the triple (content type, object id, key) is unique over the rows of
    [Metadatum].  In a table that satisfies the constraint two rows with the
    same triple are one row, so an entity has at most one value per key; the
    constraint holds again after [create] (which refuses a second row with
    [IntegrityError], so that creating the same row twice leaves one row,
    with the value), after the deletion of an entity's rows, of a datum or
    of an entity, after [copy_metadata_to], after [store_set] and after the
    writes of a submission; and setting the same (entity, key, value) twice
    leaves exactly one row of that key, with that value. *)
Theorem unique_together_preserved (db : Database) :
  unique_together db →
  (∀ d1 d2, d1 ∈ metadata_rows db → d2 ∈ metadata_rows db →
            unique_key d1 = unique_key d2 → d1 = d2)
  ∧ (∀ ct oid k v, unique_together (objects_create ct oid k v db).2)
  ∧ (∀ ct oid k v, (ct, oid, k) ∈ unique_key <$> metadata_rows db →
                   objects_create ct oid k v db = (Raise IntegrityError, db))
  ∧ (∀ ct oid k v, (ct, oid, k) ∉ unique_key <$> metadata_rows db →
       let db1 := (objects_create ct oid k v db).2 in
       objects_create ct oid k v db1 = (Raise IntegrityError, db1)
       ∧ ∃ d, filter (λ d, unique_key d = (ct, oid, k)) (metadata_rows db1) = [d]
              ∧ value d = v)
  ∧ (∀ ct oid, unique_together (objects_filter_delete ct oid db).2)
  ∧ (∀ datum, unique_together (Metadatum_delete datum db).2)
  ∧ (∀ obj, unique_together (delete obj db).2)
  ∧ (∀ self obj, unique_together (copy_metadata_to self obj db).2)
  ∧ (∀ ct oid k v, unique_together (store_set ct oid k v db).2)
  ∧ (∀ validated obj, unique_together (persist validated obj db).2)
  ∧ (∀ ct oid k v,
       let db2 := (store_set ct oid k v (store_set ct oid k v db).2).2 in
       unique_together db2
       ∧ ∃ d, filter (λ d, unique_key d = (ct, oid, k)) (metadata_rows db2) = [d]
              ∧ value d = v).
Proof.
  intros Hu.
  split; [intros d1 d2; by apply NoDup_fmap_eq|].
  split; [intros; by apply objects_create_unique|].
  split; [intros; by apply objects_create_taken|].
  split.
  { intros ct oid k v Hfresh db1. subst db1.
    rewrite (objects_create_fresh ct oid k v db) by done. cbn [snd metadata_rows]. split.
    - apply objects_create_taken.
      cbn [metadata_rows]. rewrite fmap_app, elem_of_app. right. left.
    - eexists. rewrite filter_app, no_row by done. rewrite filter_cons.
      destruct (decide _) as [_|Hne]; [|by destruct Hne].
      split; [reflexivity|done]. }
  split; [intros; by apply objects_filter_delete_unique|].
  split; [intros; by apply NoDup_fmap_filter|].
  split.
  { intros obj. unfold delete, unique_together. cbn [snd metadata_rows].
    by apply NoDup_fmap_filter. }
  split; [intros; by apply copy_metadata_to_unique|].
  split; [intros; by apply store_set_unique|].
  split.
  { intros validated obj. unfold persist. apply for_invariant; [|done].
    intros kv s Hs. by apply store_set_unique. }
  intros ct oid k v db2. subst db2. rewrite store_set_twice. cbn [snd].
  split; [by apply store_set_unique|].
  destruct (unique_row (metadata_rows (store_set ct oid k v db).2) (ct, oid, k))
    as (d & Hd & Hf).
  - by apply store_set_unique.
  - apply store_set_present.
  - exists d. split; [done|]. eapply store_set_value; [exact Hd|].
    assert (d ∈ filter (λ d, unique_key d = (ct, oid, k))
                       (metadata_rows (store_set ct oid k v db).2)) as Hin
      by (rewrite Hf; left).
    by apply list_elem_of_filter in Hin as [? _].
Qed.

Lemma unique_together_preserved_witness :
  unique_together db0
  ∧ ∃ d, filter (λ d, unique_key d = (project_ct, "2", "title"))
           (metadata_rows
              (store_set project_ct "2" "title" (PyStr "New")
                 (store_set project_ct "2" "title" (PyStr "New") db0).2).2) = [d]
         ∧ value d = PyStr "New".
Proof.
  assert (unique_together db0) as Hu by (apply (bool_decide_unpack _); vm_compute; exact I).
  split; [exact Hu|].
  destruct (unique_together_preserved db0 Hu)
    as (_ & _ & _ & _ & _ & _ & _ & _ & _ & _ & Hset).
  apply (Hset project_ct "2" "title" (PyStr "New")).
Defined.

(** ** Reading an entity's metadata *)

Lemma dict_of_rows_snoc rows d :
  dict_of_rows (rows ++ [d]) = <[key d := value d]> (dict_of_rows rows).
Proof. unfold dict_of_rows. by rewrite foldl_app. Qed.

(** With distinct keys, the dictionary holds the value of every row under its
    key. *)
Lemma dict_of_rows_lookup rows d :
  NoDup (key <$> rows) → d ∈ rows → dict_of_rows rows !! key d = Some (value d).
Proof.
  induction rows as [|a rows IH] using rev_ind; [by intros _ ?%elem_of_nil|].
  rewrite fmap_app, NoDup_app. intros (Hnd & Hdisj & _) Hd.
  rewrite dict_of_rows_snoc.
  apply elem_of_app in Hd as [Hd|Hd].
  - rewrite lookup_insert_ne; [by apply IH|].
    intros Heq. apply (Hdisj (key d)); [by apply list_elem_of_fmap_2|].
    rewrite <- Heq. simpl. left.
  - apply list_elem_of_singleton in Hd. subst d. by rewrite lookup_insert_eq.
Qed.

(** A key of the dictionary is the key of one of the rows. *)
Lemma dict_of_rows_lookup_inv rows k v :
  dict_of_rows rows !! k = Some v → ∃ d, d ∈ rows ∧ key d = k ∧ value d = v.
Proof.
  induction rows as [|a rows IH] using rev_ind.
  { unfold dict_of_rows. simpl. by rewrite lookup_empty. }
  rewrite dict_of_rows_snoc. destruct (decide (key a = k)) as [<-|Hne].
  - rewrite lookup_insert_eq. intros [= <-]. exists a. split; [|done].
    apply elem_of_app. right. left.
  - rewrite lookup_insert_ne by done. intros (d & Hd & Hk)%IH.
    exists d. split; [|done]. apply elem_of_app. by left.
Qed.

Lemma get_metadata_form_initial_data_eq obj db :
  get_metadata_form_initial_data obj db = (Ok (metadata_of db obj), db).
Proof. reflexivity. Qed.

(** C10: a [Metadatum] may hold [None].  Creating a row whose value is [None]
    under a key the entity does not have yet is accepted, and in a table that
    satisfies the constraint, for every row of an entity whose value is
    [None], the dictionary [get_metadata_form_initial_data] returns has the
    row's key, bound to [None]: the key is not left out. *)
Theorem none_value_is_stored_and_read (db : Database) (obj : Obj) :
  unique_together db →
  (∀ d, d ∈ metadata_rows db → refers_to (get_for_model obj) (pk obj) d →
        value d = PyNone →
        ∃ m, get_metadata_form_initial_data obj db = (Ok m, db)
             ∧ m !! key d = Some PyNone)
  ∧ (∀ k, (get_for_model obj, pk obj, k) ∉ unique_key <$> metadata_rows db →
          ∃ d db',
            objects_create (get_for_model obj) (pk obj) k PyNone db = (Ok d, db')
            ∧ d ∈ metadata_rows db' ∧ key d = k ∧ value d = PyNone
            ∧ unique_together db'
            ∧ metadata_of db' obj !! k = Some PyNone).
Proof.
  intros Hu. split.
  - intros d Hd Hr Hv. exists (metadata_of db obj).
    split; [apply get_metadata_form_initial_data_eq|].
    rewrite <- Hv. apply dict_of_rows_lookup.
    + by apply unique_keys_of_entity.
    + by apply list_elem_of_filter.
  - intros k Hfresh.
    pose proof (objects_create_unique (get_for_model obj) (pk obj) k PyNone db Hu) as Hu'.
    rewrite objects_create_fresh in * by done. cbn [snd] in Hu'.
    eexists _, _. split; [reflexivity|]. cbn [metadata_rows key value].
    split; [apply elem_of_app; right; left|]. do 3 (split; [done|]).
    match goal with |- metadata_of ?db' _ !! _ = _ =>
      pose proof (dict_of_rows_lookup (rows_of db' obj)
        {| id := metadata_seq db; content_type := get_for_model obj;
           object_id := pk obj; key := k; value := PyNone |}) as Hl end.
    apply Hl.
    + by apply unique_keys_of_entity.
    + apply list_elem_of_filter. split; [by split|].
      cbn [metadata_rows]. apply elem_of_app. right. left.
Qed.

Lemma none_value_is_stored_and_read_witness :
  unique_together db0
  ∧ ∃ m, get_metadata_form_initial_data project1 db0 = (Ok m, db0)
         ∧ m !! "funder" = Some PyNone.
Proof.
  assert (unique_together db0) as Hu by (apply (bool_decide_unpack _); vm_compute; exact I).
  split; [exact Hu|].
  destruct (none_value_is_stored_and_read db0 project1 Hu) as [Hread _].
  apply (Hread datum2).
  - right. left.
  - by split.
  - reflexivity.
Defined.

(** ** Deleting an entity or a datum *)













(** Deleting the [ContentType] row of [Project] takes the metadata of every
    project with it, though [ContentType] does not inherit [HasMetadata]. *)
Lemma delete_content_type_row :
  metadata_rows (delete project_ct_row db0).2 = [datum4].
Proof. by vm_compute. Qed.

(** Deleting a note deletes its task, and with the task the task's metadata,
    though [Note] does not inherit [HasMetadata]. *)
Lemma delete_note_with_task :
  collect db_tasks note1 = [note1; task1]
  ∧ delete note1 db_tasks =
      (Ok tt, {| metadata_rows := [datum4]; metadata_seq := 6; object_rows := [] |}).
Proof. split; by vm_compute. Qed.

(** ** The registry of field types *)

(** C4 (as stated, refuted): [BooleanField] is registered when admin.py is
    loaded; registering it once more ends normally, not with
    [DuplicateTypeError], and the registry has one entry more: a second one
    for [BooleanField]. *)
Lemma register_field_type_twice :
  BooleanField ∈ child_models.*1
  ∧ (register_field_type BooleanField None child_models).1 = Ok tt
  ∧ (register_field_type BooleanField None child_models).1 ≠ Raise DuplicateTypeError
  ∧ (register_field_type BooleanField None child_models).2 ≠ child_models
  ∧ length (filter (λ e, e.1 = BooleanField)
              (register_field_type BooleanField None child_models).2) = 2.
Proof.
  split; [by vm_compute; left|]. split; [done|]. split; [done|].
  split; [|by vm_compute].
  intros Heq. apply (f_equal length) in Heq. vm_compute in Heq. discriminate.
Qed.

(** C4 (amended): [register_field_type] never fails.  For every registry,
    field model and optional admin class it ends normally and appends one
    entry for the model at the end of [child_models], keeping the entries
    that were there; a model that was registered before has one entry more
    afterwards. *)
Theorem register_field_type_appends (model : FieldModel)
    (model_admin : option AdminClass) (registry : Registry) :
  (register_field_type model model_admin registry).1 = Ok tt
  ∧ (∃ a, (register_field_type model model_admin registry).2 = registry ++ [(model, a)]
          ∧ base_model a = match model_admin with
                           | Some a' => base_model a'
                           | None => model
                           end)
  ∧ (register_field_type model model_admin registry).2.*1 = registry.*1 ++ [model]
  ∧ length (filter (λ e, e.1 = model) (register_field_type model model_admin registry).2)
    = S (length (filter (λ e, e.1 = model) registry)).
Proof.
  split; [done|]. split.
  - eexists. split; [reflexivity|]. by destruct model_admin.
  - split.
    + unfold register_field_type. cbn [snd]. by rewrite fmap_app.
    + unfold register_field_type. cbn [snd]. rewrite filter_app, length_app.
      rewrite filter_cons. cbn [fst]. destruct (decide (model = model)); [|done].
      simpl. lia.
Qed.

(** The fifteen registrations of admin.py are of distinct models. *)
Lemma child_models_distinct : NoDup child_models.*1 ∧ length child_models = 15.
Proof. split; [|done]. apply (bool_decide_unpack _). by vm_compute. Qed.

(** ** Validation *)

Lemma validate_field_errors rawValues acc r :
  (validate_field rawValues acc r).2 =
    acc.2 ++ (if field_fails rawValues r
              then match rawValues !! rule_name r with
                   | None => [(rule_name r, MissingRequiredError)]
                   | Some raw =>
                       match rule_validator r raw with
                       | inl reason => [(rule_name r, InvalidValueError reason)]
                       | inr _ => []
                       end
                   end
              else []).
Proof.
  unfold validate_field, field_fails.
  destruct (rawValues !! rule_name r) as [raw|].
  - destruct (rule_validator r raw); simpl; [done|by rewrite app_nil_r].
  - destruct (rule_required r); simpl; [done|by rewrite app_nil_r].
Qed.

(** The loop never drops an error it has recorded. *)
Lemma validate_loop_keeps rawValues schema acc e :
  e ∈ acc.2 → e ∈ (foldl (validate_field rawValues) acc schema).2.
Proof.
  revert acc. induction schema as [|r schema IH]; intros acc He; [done|].
  simpl. apply IH. rewrite validate_field_errors. apply elem_of_app. by left.
Qed.

(** The names in error are those of the failing fields, in schema order. *)
Lemma validate_loop_names rawValues schema acc :
  (foldl (validate_field rawValues) acc schema).2.*1
  = acc.2.*1 ++ (rule_name <$> filter (λ r, field_fails rawValues r) schema).
Proof.
  revert acc. induction schema as [|r schema IH]; intros acc.
  - simpl. by rewrite app_nil_r.
  - simpl. rewrite IH, validate_field_errors, fmap_app, <- app_assoc. f_equal.
    rewrite filter_cons.
    destruct (decide (field_fails rawValues r)) as [Hf|Hf].
    + apply Is_true_true in Hf. rewrite Hf. unfold field_fails in Hf.
      destruct (rawValues !! rule_name r) as [raw|]; [|done].
      by destruct (rule_validator r raw).
    + apply Is_true_false in Hf. by rewrite Hf.
Qed.

(** Every failing field has its error in the result, of the kind the
    specification names. *)
Lemma validate_loop_reports rawValues schema acc r :
  r ∈ schema → field_fails rawValues r →
  ∃ e, (rule_name r, e) ∈ (foldl (validate_field rawValues) acc schema).2
       ∧ match rawValues !! rule_name r with
         | None => e = MissingRequiredError
         | Some raw => ∃ reason, rule_validator r raw = inl reason
                                 ∧ e = InvalidValueError reason
         end.
Proof.
  revert acc. induction schema as [|r' schema IH]; intros acc Hr Hfail.
  { by apply elem_of_nil in Hr. }
  apply elem_of_cons in Hr as [<-|Hr]; [|by apply IH].
  simpl. unfold field_fails in Hfail.
  destruct (rawValues !! rule_name r) as [raw|] eqn:Hraw.
  - destruct (rule_validator r raw) as [reason|v] eqn:Hv; [|done].
    exists (InvalidValueError reason). split; [|by exists reason].
    apply validate_loop_keeps. unfold validate_field. rewrite Hraw, Hv. simpl.
    apply elem_of_app. right. left.
  - exists MissingRequiredError. split; [|done].
    apply validate_loop_keeps. unfold validate_field. rewrite Hraw.
    destruct (rule_required r); [|done]. simpl. apply elem_of_app. right. left.
Qed.

Lemma valid_iff_no_errors result : valid result = true ↔ result.2 = [].
Proof. unfold valid. by destruct (result.2). Qed.

Lemma valid_iff_no_failing_field schema rawValues :
  valid (validate schema rawValues) = true
  ↔ ∀ r, r ∈ schema → field_fails rawValues r = false.
Proof.
  rewrite valid_iff_no_errors. split.
  - intros Hnil r Hr. destruct (field_fails rawValues r) eqn:Hf; [|done].
    destruct (validate_loop_reports rawValues schema ([], []) r Hr) as (e & He & _).
    { by rewrite Hf. }
    unfold validate in Hnil. rewrite Hnil in He. by apply elem_of_nil in He.
  - intros Hall. apply (fmap_nil_inv fst). unfold validate.
    rewrite validate_loop_names. simpl.
    induction schema as [|r schema IH]; [done|].
    rewrite filter_cons. rewrite (Hall r) by left. simpl. apply IH.
    intros r' Hr'. apply Hall. by right.
Qed.

(** The examples of section 8 of the specification. *)
Lemma application_age_below_minimum :
  validate application {[ "age" := PyInt 15 ]}
  = ([], [("age", InvalidValueError "below minimum")]).
Proof. by vm_compute. Qed.

Lemma application_country_not_a_choice :
  validate application {[ "age" := PyInt 30; "country" := PyStr "FR" ]}
  = ([("age", PyInt 30)], [("country", InvalidValueError "not a valid choice")]).
Proof. by vm_compute. Qed.

Lemma application_accepted :
  validate application {[ "age" := PyInt 30; "country" := PyStr "UK" ]}
  = ([("age", PyInt 30); ("country", PyStr "UK")], []).
Proof. by vm_compute. Qed.

Lemma application_both_errors :
  validate application {[ "country" := PyStr "FR"; "colour" := PyStr "red" ]}
  = ([], [("age", MissingRequiredError);
          ("country", InvalidValueError "not a valid choice")]).
Proof. by vm_compute. Qed.

(** ** The admin class *)

Lemma response_add_invalid {F : Type} `{MetadataFormClass F}
    (self : HasMetadataModelAdmin F) request obj parent_form_errors cls db :
  metadata_form_class self = Some cls →
  "_has_metadata" ∈ dom (POST request) →
  is_valid cls (POST request) "metadata" = false →
  response_add self request obj parent_form_errors db =
    (Ok (ChangeForm (Bound cls (POST request) "metadata")
           (parent_form_errors.*2 ++ (errors cls (POST request) "metadata").*2)), db).
Proof.
  intros Hcls Hmark Hinv. unfold response_add, get_metadata_form_class.
  rewrite Hcls. destruct (decide _) as [_|]; [|contradiction]. rewrite Hinv.
  erewrite bind_ok by reflexivity. cbn [form_errors].
  destruct (errors cls (POST request) "metadata"); [|done].
  by rewrite app_nil_r.
Qed.

(** C7: for every schema and every mapping of raw values, the result of
    [validate] is valid exactly when its list of per-field errors is empty,
    which is exactly when no field of the schema fails; the fields in error
    are all the failing fields of the schema, each once and in schema order,
    so a failure of one field never hides that of a later one; every failing
    field has its own error, [MissingRequiredError] when the value is absent
    and [InvalidValueError] with the validator's reason otherwise; and when a
    submission is refused, [response_add] puts the messages of all of them
    after those of the parent form in the [errors] of the page. *)
Theorem validate_reports_every_error (schema : Schema) (rawValues : gmap string pyvalue) :
  (valid (validate schema rawValues) = true ↔ (validate schema rawValues).2 = [])
  ∧ (valid (validate schema rawValues) = true
     ↔ ∀ r, r ∈ schema → field_fails rawValues r = false)
  ∧ (validate schema rawValues).2.*1
    = rule_name <$> filter (λ r, field_fails rawValues r) schema
  ∧ (∀ r, r ∈ schema → field_fails rawValues r →
          ∃ e, (rule_name r, e) ∈ (validate schema rawValues).2
               ∧ match rawValues !! rule_name r with
                 | None => e = MissingRequiredError
                 | Some raw => ∃ reason, rule_validator r raw = inl reason
                                         ∧ e = InvalidValueError reason
                 end)
  ∧ (∀ (self : HasMetadataModelAdmin Schema) request obj parent_form_errors db,
       metadata_form_class self = Some schema →
       "_has_metadata" ∈ dom (POST request) →
       rawValues = raw_values schema (POST request) "metadata" →
       valid (validate schema rawValues) = false →
       response_add self request obj parent_form_errors db =
         (Ok (ChangeForm (Bound schema (POST request) "metadata")
                (parent_form_errors.*2
                 ++ ((λ e, [error_message e.2]) <$> (validate schema rawValues).2))),
          db)).
Proof.
  split; [apply valid_iff_no_errors|].
  split; [apply valid_iff_no_failing_field|].
  split; [apply (validate_loop_names rawValues schema ([], []))|].
  split; [intros r; apply validate_loop_reports|].
  intros self request obj parent_form_errors db Hcls Hmark -> Hinv.
  rewrite (response_add_invalid self request obj parent_form_errors schema) by done.
  cbn [errors Schema_form]. by rewrite <- list_fmap_compose.
Qed.

Lemma validate_reports_every_error_witness :
  (validate project_form (raw_values project_form (POST post_invalid) "metadata")).2
  = [("country", InvalidValueError "not a valid choice")]
  ∧ response_add project_admin post_invalid project1 [] db0 =
      (Ok (ChangeForm (Bound project_form (POST post_invalid) "metadata")
             [["not a valid choice"]]), db0).
Proof.
  split; [by vm_compute|].
  destruct (validate_reports_every_error project_form
              (raw_values project_form (POST post_invalid) "metadata"))
    as (_ & _ & _ & _ & Hpage).
  rewrite (Hpage project_admin post_invalid project1 [] db0).
  - by vm_compute.
  - reflexivity.
  - apply (bool_decide_unpack _). by vm_compute.
  - reflexivity.
  - by vm_compute.
Defined.

(** C2: with a metadata form class configured, a submission whose metadata
    form does not validate writes nothing: [save_model] ends with the
    database it started from, so neither the owning object nor any row of
    [Metadatum] is created or changed and every entity reads the same
    metadata as before; and whenever [save_model] does change the database,
    the request carried the metadata marker and the whole form validated. *)
Theorem save_model_all_or_nothing {F : Type} `{MetadataFormClass F} {ParentForm : Type}
    (super_save_model : HttpRequest → Obj → ParentForm → bool → ORM Obj)
    (self : HasMetadataModelAdmin F) (request : HttpRequest) (obj : Obj)
    (form : ParentForm) (change : bool) (cls : F) (db : Database) :
  metadata_form_class self = Some cls →
  (is_valid cls (POST request) "metadata" = false →
   save_model super_save_model self request obj form change db = (Ok tt, db)
   ∧ ∀ o, metadata_of (save_model super_save_model self request obj form change db).2 o
          = metadata_of db o)
  ∧ ((save_model super_save_model self request obj form change db).2 ≠ db →
     "_has_metadata" ∈ dom (POST request)
     ∧ is_valid cls (POST request) "metadata" = true).
Proof.
  intros Hcls. unfold save_model, get_metadata_form_class. rewrite Hcls.
  split.
  - intros Hinv. rewrite Hinv. by destruct (decide _).
  - destruct (decide _) as [Hmark|Hmark]; [|done].
    destruct (is_valid cls (POST request) "metadata"); [done|].
    intros Hchanged. by destruct Hchanged.
Qed.

Lemma save_model_all_or_nothing_witness :
  metadata_form_class project_admin = Some project_form
  ∧ is_valid project_form (POST post_invalid) "metadata" = false
  ∧ save_model ModelAdmin_save_model project_admin post_invalid project1 tt true db0
    = (Ok tt, db0).
Proof.
  split; [reflexivity|].
  assert (is_valid project_form (POST post_invalid) "metadata" = false) as Hinv
    by (by vm_compute).
  split; [exact Hinv|].
  destruct (save_model_all_or_nothing ModelAdmin_save_model project_admin post_invalid
              project1 tt true project_form db0 eq_refl) as [Hnothing _].
  apply (Hnothing Hinv).
Defined.

(** C8: with a metadata form class configured, a request whose POST data has
    no ['_has_metadata'] key makes [save_model] end normally with the
    database it started from: the owning object is not saved and no row of
    [Metadatum] is touched, whatever the form class and the data are. *)
Theorem save_model_without_marker {F : Type} `{MetadataFormClass F} {ParentForm : Type}
    (super_save_model : HttpRequest → Obj → ParentForm → bool → ORM Obj)
    (self : HasMetadataModelAdmin F) (request : HttpRequest) (obj : Obj)
    (form : ParentForm) (change : bool) (cls : F) (db : Database) :
  metadata_form_class self = Some cls →
  "_has_metadata" ∉ dom (POST request) →
  save_model super_save_model self request obj form change db = (Ok tt, db).
Proof.
  intros Hcls Hmark. unfold save_model, get_metadata_form_class. rewrite Hcls.
  by destruct (decide _).
Qed.

Lemma save_model_without_marker_witness :
  metadata_form_class project_admin = Some project_form
  ∧ ("_has_metadata" ∉ dom (POST post_unmarked))
  ∧ is_valid project_form (POST post_unmarked) "metadata" = true
  ∧ save_model ModelAdmin_save_model project_admin post_unmarked project1 tt true db0
    = (Ok tt, db0).
Proof.
  split; [reflexivity|].
  assert ("_has_metadata" ∉ dom (POST post_unmarked)) as Hmark
    by (apply (bool_decide_unpack _); vm_compute; exact I).
  split; [exact Hmark|]. split; [by vm_compute|].
  apply (save_model_without_marker ModelAdmin_save_model project_admin post_unmarked
           project1 tt true project_form db0 eq_refl Hmark).
Defined.

(** A valid submission does write: the object is saved and the validated
    values are stored. *)
Lemma save_model_valid_writes :
  metadata_of
    (save_model ModelAdmin_save_model project_admin post_valid project2 tt true db0).2
    project2
  = {[ "title" := PyStr "New"; "country" := PyStr "UK" ]}.
Proof. by vm_compute. Qed.

(** On a change page that is posted, [render_change_form] validates the
    submitted metadata again and adds every message of the metadata form to
    the [errors] of the page. *)
Lemma render_change_form_posted {F : Type} `{MetadataFormClass F}
    (self : HasMetadataModelAdmin F) request ctx_form ctx_errors obj cls db :
  metadata_form_class self = Some cls →
  method request = "POST" →
  render_change_form self request ctx_form ctx_errors true obj db =
    (Ok (Some (Bound cls (POST request) "metadata"),
         ctx_errors ++ (errors cls (POST request) "metadata").*2), db).
Proof.
  intros Hcls Hpost. unfold render_change_form, get_metadata_form_class.
  rewrite Hcls. by destruct (decide _).
Qed.

(** On a change page of an admin class without a metadata form class, line
    350 reads [metadata_form], which no branch has bound. *)
Lemma render_change_form_unbound {F : Type} `{MetadataFormClass F}
    (self : HasMetadataModelAdmin F) request ctx_form ctx_errors obj db :
  metadata_form_class self = None →
  render_change_form self request ctx_form ctx_errors true obj db
  = (Raise UnboundLocalError, db).
Proof.
  intros Hcls. unfold render_change_form, get_metadata_form_class. by rewrite Hcls.
Qed.

(** * Further properties of the code *)

(** ** [copy_metadata_to], continued *)

(** The rows of an entity that is not the destination are not touched. *)
Lemma copy_metadata_to_other_rows self obj other db :
  entity_ref other ≠ entity_ref obj →
  rows_of (copy_metadata_to self obj db).2 other = rows_of db other.
Proof.
  intros Hne. unfold copy_metadata_to.
  erewrite bind_ok by reflexivity. erewrite bind_ok by reflexivity.
  match goal with |- context [for_ ?data _ ?s] =>
    destruct (for_create_appends (get_for_model obj) (pk obj) data s)
      as (news & Hr & Hn & _) end.
  unfold rows_of. rewrite Hr. cbn [metadata_rows].
  rewrite filter_app, filter_refers_other by done.
  rewrite (filter_refers_none _ _ _ _ news) by done. by rewrite app_nil_r.
Qed.



(** X2: when the source and the destination are the same entity, whatever
    the table, the call ends normally and leaves that entity without any row:
    its rows are deleted and none is created; no other row changes and the
    sequence does not advance. *)
Theorem copy_metadata_to_same_entity (self obj : Obj) (db : Database) :
  entity_ref self = entity_ref obj →
  (copy_metadata_to self obj db).1 = Ok tt
  ∧ rows_of (copy_metadata_to self obj db).2 obj = []
  ∧ metadata_of (copy_metadata_to self obj db).2 obj = ∅
  ∧ metadata_rows (copy_metadata_to self obj db).2
    = filter (λ d, ¬ refers_to (get_for_model obj) (pk obj) d) (metadata_rows db)
  ∧ metadata_seq (copy_metadata_to self obj db).2 = metadata_seq db.
Proof.
  intros Heq. rewrite copy_metadata_to_self by done. cbn [fst snd].
  split; [done|]. unfold metadata_of, rows_of. cbn [metadata_rows metadata_seq].
  by rewrite filter_refers_deleted.
Qed.

Lemma copy_metadata_to_same_entity_witness :
  entity_ref project1 = entity_ref project1
  ∧ rows_of (copy_metadata_to project1 project1 db0).2 project1 = [].
Proof.
  split; [reflexivity|].
  apply (copy_metadata_to_same_entity project1 project1 db0 eq_refl).
Defined.

(** X3: on a table that satisfies the constraint [copy_metadata_to] never
    raises, for any source and destination, and the sequence of primary keys
    never goes back. *)
Theorem copy_metadata_to_never_raises (self obj : Obj) (db : Database) :
  unique_together db →
  (copy_metadata_to self obj db).1 = Ok tt
  ∧ (metadata_seq db ≤ metadata_seq (copy_metadata_to self obj db).2)%N.
Proof.
  intros Hu. destruct (decide (entity_ref self = entity_ref obj)) as [Heq|Hne].
  - rewrite copy_metadata_to_self by done. cbn [fst snd metadata_seq]. split; [done|lia].
  - rewrite copy_metadata_to_distinct by done. cbn [fst snd metadata_seq]. split; [done|lia].
Qed.

Lemma copy_metadata_to_never_raises_witness :
  unique_together db0 ∧ (copy_metadata_to note1 project1 db0).1 = Ok tt.
Proof.
  assert (unique_together db0) as Hu by (apply (bool_decide_unpack _); vm_compute; exact I).
  split; [exact Hu|].
  apply (copy_metadata_to_never_raises note1 project1 db0 Hu).
Defined.

(** Without the constraint the loop can stop half way: two rows of the source
    with one key make the second [create] raise, and the first copy stays. *)
Lemma copy_metadata_to_raises_on_duplicates :
  copy_metadata_to project1 project2
    {| metadata_rows := [datum1; datum1]; metadata_seq := 5; object_rows := [] |}
  = (Raise IntegrityError,
     {| metadata_rows :=
          [datum1; datum1;
           {| id := 5; content_type := project_ct; object_id := "2";
              key := "title"; value := PyStr "Survey" |}];
        metadata_seq := 6; object_rows := [] |}).
Proof. by vm_compute. Qed.

(** X4: copying twice is the same as copying once, as far as reading goes: on
    a table that satisfies the constraint and for distinct entities the
    second call ends normally too and leaves the destination and the source
    reading as after the first. *)
Theorem copy_metadata_to_twice (self obj : Obj) (db : Database) :
  unique_together db →
  entity_ref self ≠ entity_ref obj →
  let db1 := (copy_metadata_to self obj db).2 in
  (copy_metadata_to self obj db1).1 = Ok tt
  ∧ metadata_of (copy_metadata_to self obj db1).2 obj = metadata_of db1 obj
  ∧ metadata_of (copy_metadata_to self obj db1).2 obj = metadata_of db self
  ∧ (key <$> rows_of (copy_metadata_to self obj db1).2 obj) = (key <$> rows_of db1 obj).
Proof.
  intros Hu Hne db1.
  assert (unique_together db1) as Hu1 by (by apply copy_metadata_to_unique).
  destruct (copy_metadata_to_distinct_get self obj db Hu Hne) as (_ & Hm & Hk & _).
  destruct (copy_metadata_to_distinct_get self obj db1 Hu1 Hne) as (Hok1 & Hm1 & Hk1 & _).
  assert (rows_of db1 self = rows_of db self) as Hsrc
    by (by apply copy_metadata_to_other_rows).
  split; [done|]. fold db1 in Hm, Hk.
  assert (metadata_of db1 self = metadata_of db self) as Hsrcm
    by (unfold metadata_of; fold (rows_of db1 self); fold (rows_of db self); by rewrite Hsrc).
  rewrite Hm1, Hk1, Hm, Hk, Hsrcm, Hsrc. done.
Qed.

Lemma copy_metadata_to_twice_witness :
  unique_together db0
  ∧ entity_ref project1 ≠ entity_ref project2
  ∧ metadata_of
      (copy_metadata_to project1 project2 (copy_metadata_to project1 project2 db0).2).2
      project2
    = metadata_of db0 project1.
Proof.
  assert (unique_together db0) as Hu by (apply (bool_decide_unpack _); vm_compute; exact I).
  assert (entity_ref project1 ≠ entity_ref project2) as Hne by discriminate.
  split; [exact Hu|]. split; [exact Hne|].
  apply (copy_metadata_to_twice project1 project2 db0 Hu Hne).
Defined.

(** X5: copies compose: on a table that satisfies the constraint, copying
    from [a] to [b] and then from [b] to [c] ends normally both times and
    leaves [c] reading as [a] read at the start. *)
Theorem copy_metadata_to_chain (a b c : Obj) (db : Database) :
  unique_together db →
  entity_ref a ≠ entity_ref b →
  entity_ref b ≠ entity_ref c →
  let db1 := (copy_metadata_to a b db).2 in
  (copy_metadata_to a b db).1 = Ok tt
  ∧ (copy_metadata_to b c db1).1 = Ok tt
  ∧ metadata_of (copy_metadata_to b c db1).2 c = metadata_of db a
  ∧ metadata_of (copy_metadata_to b c db1).2 b = metadata_of db a.
Proof.
  intros Hu Hab Hbc db1.
  assert (unique_together db1) as Hu1 by (by apply copy_metadata_to_unique).
  destruct (copy_metadata_to_distinct_get a b db Hu Hab) as (Hok & Hm & _).
  destruct (copy_metadata_to_distinct_get b c db1 Hu1 Hbc) as (Hok1 & Hm1 & _).
  fold db1 in Hm. rewrite Hm1, Hm. do 3 (split; [done|]).
  unfold metadata_of at 1. fold (rows_of (copy_metadata_to b c db1).2 b).
  rewrite copy_metadata_to_other_rows by done. exact Hm.
Qed.

Lemma copy_metadata_to_chain_witness :
  unique_together db0
  ∧ entity_ref project1 ≠ entity_ref project2
  ∧ entity_ref project2 ≠ entity_ref note1
  ∧ metadata_of
      (copy_metadata_to project2 note1 (copy_metadata_to project1 project2 db0).2).2
      note1
    = metadata_of db0 project1.
Proof.
  assert (unique_together db0) as Hu by (apply (bool_decide_unpack _); vm_compute; exact I).
  assert (entity_ref project1 ≠ entity_ref project2) as H12 by discriminate.
  assert (entity_ref project2 ≠ entity_ref note1) as H2n by discriminate.
  split; [exact Hu|]. split; [exact H12|]. split; [exact H2n|].
  apply (copy_metadata_to_chain project1 project2 note1 db0 Hu H12 H2n).
Defined.

(** ** [get_metadata_form_initial_data], continued *)

(** X6: reading the metadata of an object never changes the database and
    never raises.  On a table that satisfies the constraint the dictionary
    holds exactly the rows of the object: a key is bound to a value if and
    only if a row of that object has that key and that value, and a key is
    absent if and only if the object has no row of that key; the dictionary
    has as many keys as the object has rows. *)
Theorem initial_data_is_the_rows (db : Database) (obj : Obj) :
  unique_together db →
  ∃ m, get_metadata_form_initial_data obj db = (Ok m, db)
       ∧ (∀ k v, m !! k = Some v
                 ↔ ∃ d, d ∈ metadata_rows db
                        ∧ refers_to (get_for_model obj) (pk obj) d
                        ∧ key d = k ∧ value d = v)
       ∧ (∀ k, m !! k = None
               ↔ (get_for_model obj, pk obj, k) ∉ unique_key <$> metadata_rows db)
       ∧ size m = length (rows_of db obj).
Proof.
  intros Hu. exists (metadata_of db obj).
  split; [apply get_metadata_form_initial_data_eq|].
  assert (∀ k v, metadata_of db obj !! k = Some v
                 ↔ ∃ d, d ∈ metadata_rows db
                        ∧ refers_to (get_for_model obj) (pk obj) d
                        ∧ key d = k ∧ value d = v) as Hchar.
  { intros k v. split.
    - intros (d & Hd & Hk & Hv)%dict_of_rows_lookup_inv.
      apply list_elem_of_filter in Hd as [Hr Hd]. by exists d.
    - intros (d & Hd & Hr & <- & <-). apply dict_of_rows_lookup.
      + by apply unique_keys_of_entity.
      + by apply list_elem_of_filter. }
  split; [exact Hchar|]. split.
  - intros k. split.
    + intros Hnone Hin. apply list_elem_of_fmap in Hin as (d & Hk & Hd).
      unfold unique_key in Hk. injection Hk as Hct Hoid Hkey.
      assert (metadata_of db obj !! k = Some (value d)) as Hsome.
      { apply Hchar. exists d. by repeat split. }
      congruence.
    + intros Hout. destruct (metadata_of db obj !! k) as [v|] eqn:Hl; [|done].
      apply Hchar in Hl as (d & Hd & [Hct Hoid] & Hk & _). exfalso. apply Hout.
      apply list_elem_of_fmap. exists d. split; [|done]. unfold unique_key. congruence.
  - unfold metadata_of. fold (rows_of db obj).
    pose proof (unique_keys_of_entity (get_for_model obj) (pk obj) (metadata_rows db) Hu)
      as Hnd. fold (rows_of db obj) in Hnd.
    induction (rows_of db obj) as [|a rows IH] using rev_ind; [done|].
    rewrite dict_of_rows_snoc, length_app. simpl.
    rewrite fmap_app, NoDup_app in Hnd. destruct Hnd as (Hnd & Hdisj & _).
    rewrite map_size_insert_None.
    + rewrite IH by done. lia.
    + destruct (dict_of_rows rows !! key a) as [v|] eqn:Hl; [|done].
      apply dict_of_rows_lookup_inv in Hl as (d & Hd & Hk & _).
      exfalso. apply (Hdisj (key a)).
      * rewrite <- Hk. by apply list_elem_of_fmap_2.
      * simpl. left.
Qed.

Lemma initial_data_is_the_rows_witness :
  unique_together db0
  ∧ ∃ m, get_metadata_form_initial_data project1 db0 = (Ok m, db0)
         ∧ (∀ k v, m !! k = Some v
                   ↔ ∃ d, d ∈ metadata_rows db0
                          ∧ refers_to (get_for_model project1) (pk project1) d
                          ∧ key d = k ∧ value d = v)
         ∧ (∀ k, m !! k = None
                 ↔ (get_for_model project1, pk project1, k)
                     ∉ unique_key <$> metadata_rows db0)
         ∧ size m = length (rows_of db0 project1).
Proof.
  assert (unique_together db0) as Hu by (apply (bool_decide_unpack _); vm_compute; exact I).
  split; [exact Hu|].
  apply (initial_data_is_the_rows db0 project1 Hu).
Defined.

(** ** [response_add], [response_change] and [render_change_form] *)

(** X7: [response_add] never writes and never raises: for every admin
    class, form class, request, object and database it ends normally with the
    database it started from. *)
Theorem response_add_read_only {F : Type} `{MetadataFormClass F}
    (self : HasMetadataModelAdmin F) (request : HttpRequest) (obj : Obj)
    (parent_form_errors : list (string * list string)) (db : Database) :
  ∃ r, response_add self request obj parent_form_errors db = (Ok r, db).
Proof.
  unfold response_add, get_metadata_form_class.
  destruct (metadata_form_class self) as [cls|]; [|by eexists].
  destruct (decide _) as [Hmark|Hmark].
  - destruct (is_valid cls (POST request) "metadata"); by eexists.
  - by eexists.
Qed.

(** X8: [save_model] and [response_add] agree.  With a metadata form class
    configured, [response_add] hands over to the parent class exactly when
    the request carries the marker and the metadata form validates, which is
    when [save_model] saves; in every other case [save_model] has written
    nothing and [response_add] shows the form again. *)
Theorem response_add_agrees_with_save_model {F : Type} `{MetadataFormClass F}
    {ParentForm : Type}
    (super_save_model : HttpRequest → Obj → ParentForm → bool → ORM Obj)
    (self : HasMetadataModelAdmin F) (request : HttpRequest) (obj : Obj)
    (form : ParentForm) (change : bool)
    (parent_form_errors : list (string * list string)) (cls : F) (db : Database) :
  metadata_form_class self = Some cls →
  ((response_add self request obj parent_form_errors db).1 = Ok SuperResponse
   ↔ "_has_metadata" ∈ dom (POST request)
     ∧ is_valid cls (POST request) "metadata" = true)
  ∧ ((response_add self request obj parent_form_errors db).1 = Ok SuperResponse →
     save_model super_save_model self request obj form change db
     = (super_save_model request obj form change
        ≫= λ saved, save cls (POST request) "metadata" saved) db)
  ∧ ((response_add self request obj parent_form_errors db).1 ≠ Ok SuperResponse →
     save_model super_save_model self request obj form change db = (Ok tt, db)
     ∧ ∃ metadata_form ctx_errors,
         (response_add self request obj parent_form_errors db).1
         = Ok (ChangeForm metadata_form ctx_errors)).
Proof.
  intros Hcls. unfold response_add, save_model, get_metadata_form_class. rewrite Hcls.
  destruct (decide ("_has_metadata" ∈ dom (POST request))) as [Hmark|Hmark].
  - destruct (is_valid cls (POST request) "metadata") eqn:Hv.
    + split; [done|]. split; [done|]. by intros [].
    + split; [split; [done|by intros [_ ?]]|]. split; [done|].
      intros _. split; [done|]. by eexists _, _.
  - split; [split; [done|by intros [? _]]|]. split; [done|].
    intros _. split; [done|]. by eexists _, _.
Qed.

Lemma response_add_agrees_with_save_model_witness :
  metadata_form_class project_admin = Some project_form
  ∧ ((response_add project_admin post_valid project2 [] db0).1 = Ok SuperResponse
     ↔ "_has_metadata" ∈ dom (POST post_valid)
       ∧ is_valid project_form (POST post_valid) "metadata" = true).
Proof.
  split; [reflexivity|].
  apply (response_add_agrees_with_save_model ModelAdmin_save_model project_admin
           post_valid project2 tt false [] project_form db0 eq_refl).
Defined.

(** X9: a request without the marker gets the metadata form unbound and
    filled with the metadata stored for the object, with the errors of the
    parent form only. *)
Theorem response_add_prefills {F : Type} `{MetadataFormClass F}
    (self : HasMetadataModelAdmin F) (request : HttpRequest) (obj : Obj)
    (parent_form_errors : list (string * list string)) (cls : F) (db : Database) :
  metadata_form_class self = Some cls →
  "_has_metadata" ∉ dom (POST request) →
  response_add self request obj parent_form_errors db
  = (Ok (ChangeForm (Unbound cls (metadata_of db obj) "metadata") parent_form_errors.*2),
     db).
Proof.
  intros Hcls Hmark. unfold response_add, get_metadata_form_class. rewrite Hcls.
  by destruct (decide _).
Qed.

Lemma response_add_prefills_witness :
  metadata_form_class project_admin = Some project_form
  ∧ ("_has_metadata" ∉ dom (POST post_unmarked))
  ∧ response_add project_admin post_unmarked project1 [("name", ["Too long."])] db0
    = (Ok (ChangeForm (Unbound project_form
                         {[ "title" := PyStr "Survey"; "funder" := PyNone ]} "metadata")
             [["Too long."]]), db0).
Proof.
  split; [reflexivity|].
  assert ("_has_metadata" ∉ dom (POST post_unmarked)) as Hmark
    by (apply (bool_decide_unpack _); vm_compute; exact I).
  split; [exact Hmark|].
  rewrite (response_add_prefills project_admin post_unmarked project1
             [("name", ["Too long."])] project_form db0 eq_refl Hmark).
  by vm_compute.
Defined.

(** X10: [render_change_form] never writes.  With [change] unset it hands the
    context on as it got it.  With [change] set and a metadata form class
    configured it ends normally, with the metadata form in the context
    (bound to the posted data for a POST request, unbound and filled with
    the stored metadata otherwise) and the messages of that form after the
    errors it was given; with [change] set and no metadata form class it
    raises [UnboundLocalError].  So with [change] set it ends normally
    exactly when a metadata form class is configured. *)
Theorem render_change_form_cases {F : Type} `{MetadataFormClass F}
    (self : HasMetadataModelAdmin F) (request : HttpRequest)
    (ctx_metadata_form : option (FormInstance F)) (ctx_errors : list (list string))
    (change : bool) (obj : Obj) (db : Database) :
  (render_change_form self request ctx_metadata_form ctx_errors change obj db).2 = db
  ∧ (change = false →
     render_change_form self request ctx_metadata_form ctx_errors change obj db
     = (Ok (ctx_metadata_form, ctx_errors), db))
  ∧ (change = true →
     (metadata_form_class self = None →
      render_change_form self request ctx_metadata_form ctx_errors change obj db
      = (Raise UnboundLocalError, db))
     ∧ (∀ cls, metadata_form_class self = Some cls →
          render_change_form self request ctx_metadata_form ctx_errors change obj db
          = (Ok (if decide (method request = "POST")
                 then (Some (Bound cls (POST request) "metadata"),
                       ctx_errors ++ (errors cls (POST request) "metadata").*2)
                 else (Some (Unbound cls (metadata_of db obj) "metadata"), ctx_errors)),
             db))
     ∧ ((∃ ctx, (render_change_form self request ctx_metadata_form ctx_errors
                   change obj db).1 = Ok ctx)
        ↔ is_Some (metadata_form_class self))
     ∧ ((render_change_form self request ctx_metadata_form ctx_errors change obj db).1
        = Raise UnboundLocalError ↔ metadata_form_class self = None)).
Proof.
  unfold render_change_form, get_metadata_form_class.
  destruct change; [|by repeat split].
  destruct (metadata_form_class self) as [cls|].
  - destruct (decide (method request = "POST")).
    + split; [done|]. split; [done|]. intros _. split; [done|].
      split; [by intros cls' [= <-]|]. split; [|done].
      split; [by eexists|]. intros _. by eexists.
    + split; [done|]. split; [done|]. intros _. split; [done|].
      split.
      { intros cls' [= <-]. erewrite bind_ok by reflexivity.
        cbn [form_errors fmap list_fmap mret St_ret]. by rewrite app_nil_r. }
      split; [|done]. split; [by eexists|]. intros _. by eexists.
  - split; [done|]. split; [done|]. intros _. split; [done|].
    split; [done|]. split; [|done].
    split; [by intros [ctx ?]|by intros [? ?]].
Qed.

Lemma render_change_form_cases_witness :
  render_change_form {| metadata_form_class := @None Schema |} post_valid None [] true
    project1 db0
  = (Raise UnboundLocalError, db0)
  ∧ render_change_form project_admin post_invalid None [] true project1 db0
    = (Ok (Some (Bound project_form (POST post_invalid) "metadata"),
           [["not a valid choice"]]), db0).
Proof.
  destruct (render_change_form_cases {| metadata_form_class := @None Schema |}
              post_valid None [] true project1 db0) as (_ & _ & Hnone).
  destruct (render_change_form_cases project_admin post_invalid None [] true project1 db0)
    as (_ & _ & Hsome).
  split.
  - exact (proj1 (Hnone eq_refl) eq_refl).
  - rewrite (proj1 (proj2 (Hsome eq_refl)) project_form eq_refl). by vm_compute.
Defined.

(** X11: [response_change] never writes.  It hands over to the parent class
    exactly when no metadata form class is configured or the request carries
    the marker and the metadata form validates; otherwise it never raises,
    and for a posted request the page shows the metadata form bound to the
    posted data with the messages of the parent form followed by all those
    of the metadata form, also when the marker is missing. *)
Theorem response_change_cases {F : Type} `{MetadataFormClass F}
    (self : HasMetadataModelAdmin F) (request : HttpRequest) (obj : Obj)
    (parent_form_errors : list (string * list string)) (db : Database) :
  (∃ r, response_change self request obj parent_form_errors db = (Ok r, db))
  ∧ ((response_change self request obj parent_form_errors db).1 = Ok SuperResponseChange
     ↔ match metadata_form_class self with
       | None => True
       | Some cls => "_has_metadata" ∈ dom (POST request)
                     ∧ is_valid cls (POST request) "metadata" = true
       end)
  ∧ (∀ cls, metadata_form_class self = Some cls →
            method request = "POST" →
            (response_change self request obj parent_form_errors db).1
              ≠ Ok SuperResponseChange →
            (response_change self request obj parent_form_errors db).1
            = Ok (RenderedChangeForm (Some (Bound cls (POST request) "metadata"))
                    (parent_form_errors.*2 ++ (errors cls (POST request) "metadata").*2))).
Proof.
  unfold response_change, render_change_form, get_metadata_form_class.
  destruct (metadata_form_class self) as [cls|].
  2: { split; [by eexists|]. split; [done|]. by intros cls [=]. }
  destruct (decide ("_has_metadata" ∈ dom (POST request))) as [Hmark|Hmark].
  - destruct (is_valid cls (POST request) "metadata") eqn:Hv.
    + split; [by eexists|]. split; [done|]. by intros cls' _ _ [].
    + destruct (decide (method request = "POST")) as [Hpost|Hget].
      * split; [by eexists|]. split; [split; [done|by intros [_ ?]]|].
        by intros cls' [= <-] _ _.
      * split; [by eexists|]. split; [split; [done|by intros [_ ?]]|].
        by intros cls' _ Hpost.
  - destruct (decide (method request = "POST")) as [Hpost|Hget].
    + split; [by eexists|]. split; [split; [done|by intros [? _]]|].
      by intros cls' [= <-] _ _.
    + split; [by eexists|]. split; [split; [done|by intros [? _]]|].
      by intros cls' _ Hpost.
Qed.

Lemma response_change_cases_witness :
  (response_change project_admin post_unmarked project1 [] db0).1
  = Ok (RenderedChangeForm (Some (Bound project_form (POST post_unmarked) "metadata"))
          (errors project_form (POST post_unmarked) "metadata").*2).
Proof.
  destruct (response_change_cases project_admin post_unmarked project1 [] db0)
    as (_ & _ & Hposted).
  apply (Hposted project_form eq_refl eq_refl). discriminate.
Defined.

(** ** The registry, continued *)

(** X12: registrations keep the registry consistent and never disturb what
    is registered: if every entry pairs a model with an admin class for that
    model, and the admin class that is passed, if any, is for the model that
    is registered, the same holds afterwards; every entry stays at its
    position; the new entry comes last and is for the model, with the admin
    class that was passed, as it was passed, or else with a generated one for
    the model, named after the model's [model_name], with [FieldChildAdmin]
    as its only base and no inlines. *)
Theorem register_field_type_consistent (model : FieldModel)
    (model_admin : option AdminClass) (registry : Registry) :
  Forall (λ e, base_model e.2 = e.1) registry →
  (∀ a, model_admin = Some a → base_model a = model) →
  Forall (λ e, base_model e.2 = e.1) (register_field_type model model_admin registry).2
  ∧ length (register_field_type model model_admin registry).2 = S (length registry)
  ∧ (∀ i e, registry !! i = Some e →
            (register_field_type model model_admin registry).2 !! i = Some e)
  ∧ ∃ a, (register_field_type model model_admin registry).2 !! length registry
         = Some (model, a)
         ∧ base_model a = model
         ∧ (∀ a', model_admin = Some a' → a = a')
         ∧ (model_admin = None →
            admin_name a = model_name model +:+ "Admin"
            ∧ admin_bases a = ["FieldChildAdmin"] ∧ inlines a = []).
Proof.
  intros Hreg Hadmin. unfold register_field_type. cbn [snd].
  split.
  { apply Forall_app. split; [done|]. constructor; [|done]. cbn [fst snd].
    destruct model_admin as [a|]; [by apply Hadmin|done]. }
  split; [rewrite length_app; simpl; lia|].
  split; [intros i e Hi; by apply lookup_app_l_Some|].
  eexists. split; [by rewrite list_lookup_middle|].
  destruct model_admin as [a|].
  - split; [by apply Hadmin|]. split; [by intros a' [= <-]|done].
  - split; [done|]. split; [done|]. by intros _.
Qed.

Lemma register_field_type_consistent_witness :
  Forall (λ e, base_model e.2 = e.1) child_models
  ∧ (∀ a, Some ChoiceFieldAdmin = Some a → base_model a = ChoiceField)
  ∧ Forall (λ e, base_model e.2 = e.1)
      (register_field_type ChoiceField (Some ChoiceFieldAdmin) child_models).2.
Proof.
  assert (Forall (λ e, base_model e.2 = e.1) child_models) as Hreg
    by (apply (bool_decide_unpack _); vm_compute; exact I).
  assert (∀ a, Some ChoiceFieldAdmin = Some a → base_model a = ChoiceField) as Hadmin
    by (by intros a [= <-]).
  split; [exact Hreg|]. split; [exact Hadmin|].
  apply (register_field_type_consistent ChoiceField (Some ChoiceFieldAdmin) child_models
           Hreg Hadmin).
Defined.

(** X13: once admin.py is loaded, [child_models] lists the fifteen field
    models in the order of lines 134-148, none of them twice, each with an
    admin class for that very model; the admin classes of [ChoiceField] and
    [MultipleChoiceField] are the two declared ones, with the inline for the
    choices, and all the others are generated, without inlines. *)
Theorem child_models_at_import :
  class_name <$> child_models.*1
  = ["BooleanField"; "SingleLineTextField"; "MultiLineTextField"; "EmailField";
     "IPv4Field"; "RegexField"; "SlugField"; "URLField"; "IntegerField";
     "FloatField"; "ChoiceField"; "MultipleChoiceField"; "DateField";
     "DateTimeField"; "TimeField"]
  ∧ NoDup child_models.*1
  ∧ Forall (λ e, base_model e.2 = e.1) child_models
  ∧ Forall (λ e, if decide (e.1 = ChoiceField ∨ e.1 = MultipleChoiceField)
                 then inlines e.2 = ["UserChoiceInline"]
                      ∧ admin_name e.2 = class_name e.1 +:+ "Admin"
                 else inlines e.2 = []
                      ∧ admin_name e.2 = lower (class_name e.1) +:+ "Admin")
      child_models
  ∧ (register_all []).1 = Ok tt.
Proof.
  split; [by vm_compute|].
  split; [apply (bool_decide_unpack _); by vm_compute|].
  split; [apply (bool_decide_unpack _); by vm_compute|].
  split; [|done].
  unfold child_models. vm_compute. repeat constructor.
Qed.
